(** * SQL agent with tool calling: a shallow embedding of [sql_agent.ipynb]

    The notebook defines four data-access tools over a SQLite database, a
    registry and a dispatcher ([execute_function_call]) and the agent loop
    [SQLAgentWithTools.ask].  This development embeds them as Rocq functions
    and proves the properties stated about them.

    Conventions.
    - A Python [str] is a Rocq [string] holding its UTF-8 encoding.
    - A Python [int] is a [Z].
    - Values that travel through [json.loads] / [json.dumps] are [pyobj].
    - Code that can raise and that talks to the outside (the reasoning
      engine, the database, standard output) lives in the monad [M]. *)

From Stdlib Require Import String Ascii List ZArith NArith Bool Lia.
From Stdlib Require Import DecimalString Sorting.Sorted Sorting.Mergesort Permutation Orders.
Import ListNotations.

Local Open Scope list_scope.
Local Open Scope string_scope.

(** ** Python values *)

Module Py.

(** The double-quote character, and a string between double quotes. *)
Definition dq : string := String (ascii_of_nat 34) EmptyString.
Definition quoted (s : string) : string := dq ++ s ++ dq.

(** Line feed, carriage return, tab, backspace, form feed. *)
Definition LF : ascii := ascii_of_nat 10.
Definition CR : ascii := ascii_of_nat 13.
Definition TAB : ascii := ascii_of_nat 9.
Definition BS : ascii := ascii_of_nat 8.
Definition FF : ascii := ascii_of_nat 12.

(** JSON-representable Python objects.  [PFloat] carries the text
    [json.dumps] prints for the float ([float.__repr__], or [NaN],
    [Infinity], [-Infinity]); float arithmetic is not modelled.  [PDict] is
    an insertion-ordered mapping with string keys, as a Python [dict]
    holding JSON data is. *)
#[local] Unset Elimination Schemes.
Inductive pyobj : Type :=
| PNone
| PBool (b : bool)
| PInt (z : Z)
| PFloat (repr : string)
| PStr (s : string)
| PList (l : list pyobj)
| PDict (d : list (string * pyobj)).
#[local] Set Elimination Schemes.

(** [type(x).__name__] *)
Definition type_name (x : pyobj) : string :=
  match x with
  | PNone => "NoneType"
  | PBool _ => "bool"
  | PInt _ => "int"
  | PFloat _ => "float"
  | PStr _ => "str"
  | PList _ => "list"
  | PDict _ => "dict"
  end.

(** A value in a row the database hands back: a JSON-representable object
    (SQLite's INTEGER, REAL, TEXT and NULL), or a [bytes] (a BLOB). *)
Inductive Cell : Type :=
| Value (v : pyobj)
| Bytes (b : string).

(** [str(n)] for an [int]. *)
Definition str_of_int (z : Z) : string := NilZero.string_of_int (Z.to_int z).

(** *** Dictionaries: insertion-ordered association lists *)

Section Dict.
Context {V : Type}.

(** [d.get(k)] *)
Fixpoint dict_get (k : string) (d : list (string * V)) : option V :=
  match d with
  | [] => None
  | (k', v) :: d' => if String.eqb k k' then Some v else dict_get k d'
  end.

(** [k in d] *)
Definition dict_mem (k : string) (d : list (string * V)) : bool :=
  match dict_get k d with Some _ => true | None => false end.

(** [d[k] = v]: an existing key keeps its position, a new key goes last. *)
Fixpoint dict_set (k : string) (v : V) (d : list (string * V)) : list (string * V) :=
  match d with
  | [] => [(k, v)]
  | (k', v') :: d' =>
      if String.eqb k k' then (k, v) :: d' else (k', v') :: dict_set k v d'
  end.

(** [dict(pairs)] *)
Definition dict_of_pairs (pairs : list (string * V)) : list (string * V) :=
  fold_left (fun d kv => dict_set (fst kv) (snd kv) d) pairs [].
End Dict.

(** [dict(zip(keys, values))] *)
Definition dict_zip {V : Type} (keys : list string) (values : list V) : list (string * V) :=
  dict_of_pairs (combine keys values).

(** *** Strings *)

(** [sep.join(parts)] *)
Fixpoint join (sep : string) (parts : list string) : string :=
  match parts with
  | [] => ""
  | [p] => p
  | p :: ps => p ++ sep ++ join sep ps
  end.

(** [s.split(',')]: the pieces between commas; never an empty list. *)
Fixpoint split_comma_aux (s : string) (piece : string) : list string :=
  match s with
  | EmptyString => [piece]
  | String c s' =>
      if Ascii.eqb c ","%char then piece :: split_comma_aux s' ""
      else split_comma_aux s' (piece ++ String c "")
  end.
Definition split_comma (s : string) : list string := split_comma_aux s "".

(** The number of bytes of the white-space character (in the sense of
    [str.isspace]) that [bytes] starts with, 0 when it starts with none.
    ASCII: U+0009..U+000D, U+001C..U+0020.  Beyond ASCII, in UTF-8: U+0085,
    U+00A0, U+1680, U+2000..U+200A, U+2028, U+2029, U+202F, U+205F,
    U+3000. *)
Definition space_prefix (bytes : list N) : nat :=
  match bytes with
  | b0 :: rest =>
      if ((9 <=? b0) && (b0 <=? 13) || (28 <=? b0) && (b0 <=? 32))%N then 1%nat
      else match rest with
      | b1 :: rest' =>
          if ((b0 =? 194) && ((b1 =? 133) || (b1 =? 160)))%N then 2%nat
          else match rest' with
          | b2 :: _ =>
              if ((b0 =? 225) && (b1 =? 154) && (b2 =? 128))%N then 3%nat
              else if ((b0 =? 226) && (b1 =? 128)
                       && ((128 <=? b2) && (b2 <=? 138) || (b2 =? 168) || (b2 =? 169)
                           || (b2 =? 175)))%N then 3%nat
              else if ((b0 =? 226) && (b1 =? 129) && (b2 =? 159))%N then 3%nat
              else if ((b0 =? 227) && (b1 =? 128) && (b2 =? 128))%N then 3%nat
              else 0%nat
          | [] => 0%nat
          end
      | [] => 0%nat
      end
  | [] => 0%nat
  end.

(** The same, read from the end of the string: [rbytes] is reversed. *)
Definition space_suffix (rbytes : list N) : nat :=
  match rbytes with
  | b0 :: rest =>
      if ((9 <=? b0) && (b0 <=? 13) || (28 <=? b0) && (b0 <=? 32))%N then 1%nat
      else match rest with
      | b1 :: rest' =>
          if space_prefix [b1; b0] is 2%nat then 2%nat
          else match rest' with
          | b2 :: _ => if space_prefix [b2; b1; b0] is 3%nat then 3%nat else 0%nat
          | [] => 0%nat
          end
      | [] => 0%nat
      end
  | [] => 0%nat
  end.

Fixpoint strip_with (width : list N -> nat) (fuel : nat) (bytes : list N) : list N :=
  match fuel with
  | O => bytes
  | S fuel' =>
      match width bytes with
      | O => bytes
      | n => strip_with width fuel' (skipn n bytes)
      end
  end.

Definition bytes_of_string (s : string) : list N := map N_of_ascii (list_ascii_of_string s).
Definition string_of_bytes (l : list N) : string := string_of_list_ascii (map ascii_of_N l).

(** [s.strip()] *)
Definition strip (s : string) : string :=
  let l := strip_with space_prefix (String.length s) (bytes_of_string s) in
  let r := strip_with space_suffix (String.length s) (rev l) in
  string_of_bytes (rev r).

(** *** Exceptions

    The classes the code can meet, all below [Exception].  [OtherError]
    stands for any further class ([sqlite3.OperationalError],
    [pandas.errors.DatabaseError], [openai.APIError], ...). *)
Inductive exn : Type :=
| JSONDecodeError (msg : string)
| TypeError (msg : string)
| AttributeError (msg : string)
| OtherError (class_name msg : string).

(** [str(e)] *)
Definition str_of_exn (e : exn) : string :=
  match e with
  | JSONDecodeError msg | TypeError msg | AttributeError msg | OtherError _ msg => msg
  end.

(** [isinstance(e, json.JSONDecodeError)] *)
Definition is_JSONDecodeError (e : exn) : bool :=
  match e with JSONDecodeError _ => true | _ => false end.

(** [f] on the value of a call that may have raised. *)
Definition on_value {A B : Type} (f : A -> B) (r : exn + A) : exn + B :=
  match r with
  | inl e => inl e
  | inr a => inr (f a)
  end.

(** [f] on the elements of [l], in order; the first exception ends it. *)
Fixpoint for_each {A B : Type} (f : A -> exn + B) (l : list A) : exn + list B :=
  match l with
  | [] => inr []
  | a :: l' =>
      match f a with
      | inl e => inl e
      | inr b => on_value (cons b) (for_each f l')
      end
  end.

End Py.
Export Py.

(** ** The [json] module: [json.dumps] and [json.loads] *)

Module Json.

(** *** Encoding *)

Definition hex_digit (n : N) : ascii :=
  nth (N.to_nat n) (list_ascii_of_string "0123456789abcdef") "0"%char.

(** [format(n, '04x')] for [n] below 65536. *)
Definition hex4 (n : N) : string :=
  String (hex_digit (n / 4096 mod 16)) (String (hex_digit (n / 256 mod 16))
    (String (hex_digit (n / 16 mod 16)) (String (hex_digit (n mod 16)) ""))).

(** The code points of a UTF-8 string.  [need] continuation bytes are still
    expected for the code point whose leading bits are [acc]. *)
Fixpoint code_points_from (s : string) (need : nat) (acc : N) : list N :=
  match s with
  | EmptyString => []
  | String c rest =>
      let b := N_of_ascii c in
      match need with
      | O =>
          if (b <? 128)%N then b :: code_points_from rest 0 0%N
          else if (b <? 224)%N then code_points_from rest 1 (b mod 32)%N
          else if (b <? 240)%N then code_points_from rest 2 (b mod 16)%N
          else code_points_from rest 3 (b mod 8)%N
      | S n =>
          let acc' := (acc * 64 + b mod 64)%N in
          match n with
          | O => acc' :: code_points_from rest 0 0%N
          | S _ => code_points_from rest n acc'
          end
      end
  end.
Definition code_points (s : string) : list N := code_points_from s 0 0%N.

(** One code point, as [json.encoder.py_encode_basestring_ascii] writes it:
    the short escapes, printable ASCII as it is, anything else as [\uXXXX]
    (a surrogate pair above U+FFFF). *)
Definition escape_code_point (cp : N) : string :=
  if (cp =? 34)%N then "\" ++ dq
  else if (cp =? 92)%N then "\\"
  else if (cp =? 10)%N then "\n"
  else if (cp =? 13)%N then "\r"
  else if (cp =? 9)%N then "\t"
  else if (cp =? 12)%N then "\f"
  else if (cp =? 8)%N then "\b"
  else if ((32 <=? cp) && (cp <=? 126))%N then String (ascii_of_N cp) ""
  else if (cp <? 65536)%N then "\u" ++ hex4 cp
  else
    let v := (cp - 65536)%N in
    "\u" ++ hex4 (55296 + v / 1024 mod 1024)%N ++ "\u" ++ hex4 (56320 + v mod 1024)%N.

Definition encode_basestring_ascii (s : string) : string :=
  quoted (String.concat "" (map escape_code_point (code_points s))).

(** [' ' * n] *)
Fixpoint spaces (n : nat) : string :=
  match n with O => "" | S n' => String " " (spaces n') end.

(** The text of [x] when it sits at nesting depth [level].  With
    [indent = Some n] every item of a non-empty container goes on a line of
    its own, indented by [n] spaces per level, and items are separated by a
    comma; with [indent = None] everything is on one line and the separator
    is a comma and a space.  Keys and values are separated by a colon and a
    space in both cases. *)
Fixpoint dumps_at (indent : option nat) (level : nat) (x : pyobj) : string :=
  let newline_at (l : nat) : string :=
    match indent with
    | Some n => String LF (spaces (n * l))
    | None => ""
    end in
  let separator : string :=
    match indent with
    | Some _ => "," ++ newline_at (S level)
    | None => ", "
    end in
  match x with
  | PNone => "null"
  | PBool true => "true"
  | PBool false => "false"
  | PInt z => str_of_int z
  | PFloat repr => repr
  | PStr s => encode_basestring_ascii s
  | PList [] => "[]"
  | PList l =>
      "[" ++ newline_at (S level)
          ++ join separator (map (dumps_at indent (S level)) l)
          ++ newline_at level ++ "]"
  | PDict [] => "{}"
  | PDict d =>
      "{" ++ newline_at (S level)
          ++ join separator
               (map (fun '(k, v) =>
                       encode_basestring_ascii k ++ ": " ++ dumps_at indent (S level) v) d)
          ++ newline_at level ++ "}"
  end.

(** [json.dumps(x)] is [dumps None x]; [json.dumps(x, indent=2)] is
    [dumps (Some 2) x].  Every [pyobj] is serializable, so it never raises. *)
Definition dumps (indent : option nat) (x : pyobj) : string := dumps_at indent 0 x.

(** *** Objects that hold cells of the database

    What [json.dumps] reads where it meets a cell: the object, when the cell
    is JSON-representable; at a [bytes] it raises the [TypeError] of
    [JSONEncoder.default]. *)
Definition cell (c : Cell) : exn + pyobj :=
  match c with
  | Value v => inr v
  | Bytes _ => inl (TypeError "Object of type bytes is not JSON serializable")
  end.

(** A dictionary of cells, read key after key. *)
Definition record (d : list (string * Cell)) : exn + pyobj :=
  on_value PDict (for_each (fun kv => on_value (pair (fst kv)) (cell (snd kv))) d).

(** A list of such dictionaries, read in order. *)
Definition records (l : list (list (string * Cell))) : exn + list pyobj :=
  for_each record l.

(** *** Decoding, after CPython's scanner *)

Definition is_whitespace (c : ascii) : bool :=
  Ascii.eqb c " " || Ascii.eqb c TAB || Ascii.eqb c LF || Ascii.eqb c CR.

Fixpoint skip_whitespace (s : string) : string :=
  match s with
  | String c rest => if is_whitespace c then skip_whitespace rest else s
  | EmptyString => s
  end.

Definition is_digit (c : ascii) : bool :=
  let n := N_of_ascii c in ((48 <=? n) && (n <=? 57))%N.

(** The longest prefix of decimal digits, and what follows it. *)
Fixpoint span_digits (s : string) : string * string :=
  match s with
  | String c rest =>
      if is_digit c then let (ds, r) := span_digits rest in (String c ds, r) else ("", s)
  | EmptyString => ("", "")
  end.

Definition Z_of_digits (ds : string) : Z :=
  fold_left (fun acc c => (acc * 10 + Z.of_N (N_of_ascii c) - 48)%Z)
            (list_ascii_of_string ds) 0%Z.

(** [s] without its first [String.length p] characters when it starts with
    [p]. *)
Fixpoint strip_prefix (p s : string) : option string :=
  match p, s with
  | EmptyString, _ => Some s
  | String a p', String b s' => if Ascii.eqb a b then strip_prefix p' s' else None
  | String _ _, EmptyString => None
  end.

(** A number: an optional minus sign, an integer part without leading
    zeros, then an optional fraction and an optional exponent, each taken
    only when complete.  Without fraction and exponent the value is an
    [int], otherwise a [float], kept as its literal: the conversion to a
    binary float is not modelled. *)
Definition match_number (s : string) : option (pyobj * string) :=
  let (sign, s1) := match s with
                    | String "-" r => ("-", r)
                    | _ => ("", s)
                    end in
  let int_part : option (string * string) :=
    match s1 with
    | String "0" r => Some ("0", r)
    | String c _ => if is_digit c then Some (span_digits s1) else None
    | EmptyString => None
    end in
  match int_part with
  | None => None
  | Some (ds, s2) =>
      let (frac, s3) :=
        match s2 with
        | String "." r =>
            match span_digits r with
            | ("", _) => ("", s2)
            | (fs, r') => ("." ++ fs, r')
            end
        | _ => ("", s2)
        end in
      let (exp, s4) :=
        match s3 with
        | String e r =>
            if Ascii.eqb e "e" || Ascii.eqb e "E" then
              let (esign, r1) := match r with
                                 | String "+" r' => ("+", r')
                                 | String "-" r' => ("-", r')
                                 | _ => ("", r)
                                 end in
              match span_digits r1 with
              | ("", _) => ("", s3)
              | (es, r') => (String e (esign ++ es), r')
              end
            else ("", s3)
        | EmptyString => ("", s3)
        end in
      match frac, exp with
      | EmptyString, EmptyString =>
          Some (PInt (if sign is EmptyString then Z_of_digits ds else - Z_of_digits ds), s4)
      | _, _ => Some (PFloat (sign ++ ds ++ frac ++ exp), s4)
      end
  end.

Definition hex_value (c : ascii) : option N :=
  let n := N_of_ascii c in
  if ((48 <=? n) && (n <=? 57))%N then Some (n - 48)%N
  else if ((97 <=? n) && (n <=? 102))%N then Some (n - 87)%N
  else if ((65 <=? n) && (n <=? 70))%N then Some (n - 55)%N
  else None.

Definition hex4_value (c1 c2 c3 c4 : ascii) : option N :=
  match hex_value c1, hex_value c2, hex_value c3, hex_value c4 with
  | Some a, Some b, Some c, Some d => Some (a * 4096 + b * 256 + c * 16 + d)%N
  | _, _, _, _ => None
  end.

(** [chr(cp)], in UTF-8.  A lone surrogate, which a Python [str] can hold
    and UTF-8 cannot, is written like any other three-byte code point. *)
Definition chr (cp : N) : string :=
  let byte (n : N) : ascii := ascii_of_N n in
  if (cp <? 128)%N then String (byte cp) ""
  else if (cp <? 2048)%N then
    String (byte (192 + cp / 64)%N) (String (byte (128 + cp mod 64)%N) "")
  else if (cp <? 65536)%N then
    String (byte (224 + cp / 4096)%N) (String (byte (128 + cp / 64 mod 64)%N)
      (String (byte (128 + cp mod 64)%N) ""))
  else
    String (byte (240 + cp / 262144)%N) (String (byte (128 + cp / 4096 mod 64)%N)
      (String (byte (128 + cp / 64 mod 64)%N) (String (byte (128 + cp mod 64)%N) ""))).

(** The body of a string literal, after its opening quote (strict mode):
    the decoded text and what follows the closing quote. *)
Fixpoint scanstring (s : string) (acc : string) : string + (string * string) :=
  match s with
  | EmptyString => inl "Unterminated string starting at"
  | String c rest =>
      if Ascii.eqb c (ascii_of_nat 34) then inr (acc, rest)
      else if (N_of_ascii c <? 32)%N then inl "Invalid control character at"
      else if Ascii.eqb c "\" then
        match rest with
        | EmptyString => inl "Unterminated string starting at"
        | String "u" (String h1 (String h2 (String h3 (String h4 rest')))) =>
            match hex4_value h1 h2 h3 h4 with
            | None => inl "Invalid \uXXXX escape"
            | Some hi =>
                let single := scanstring rest' (acc ++ chr hi) in
                if ((55296 <=? hi) && (hi <=? 56319))%N then
                  match rest' with
                  | String "\" (String "u" (String l1 (String l2 (String l3 (String l4 rest''))))) =>
                      match hex4_value l1 l2 l3 l4 with
                      | None => inl "Invalid \uXXXX escape"
                      | Some lo =>
                          if ((56320 <=? lo) && (lo <=? 57343))%N then
                            scanstring rest''
                              (acc ++ chr (65536 + (hi - 55296) * 1024 + (lo - 56320))%N)
                          else single
                      end
                  | _ => single
                  end
                else single
            end
        | String "u" _ => inl "Invalid \uXXXX escape"
        | String e rest' =>
            let plain (a : ascii) := scanstring rest' (acc ++ String a "") in
            if Ascii.eqb e (ascii_of_nat 34) then plain e
            else if Ascii.eqb e "\" then plain e
            else if Ascii.eqb e "/" then plain e
            else if Ascii.eqb e "b" then plain BS
            else if Ascii.eqb e "f" then plain FF
            else if Ascii.eqb e "n" then plain LF
            else if Ascii.eqb e "r" then plain CR
            else if Ascii.eqb e "t" then plain TAB
            else inl "Invalid \escape"
        end
      else scanstring rest (acc ++ String c "")
  end.

(** [scan_once] reads one JSON value at the head of [s]; [parse_array] and
    [parse_object] read the items of a container whose opening bracket and
    following white space are consumed.  [fuel] bounds the nesting: every
    call consumes a character before the next call but one. *)
Fixpoint scan_once (fuel : nat) (s : string) : string + (pyobj * string) :=
  match fuel with
  | O => inl "Expecting value"
  | S fuel' =>
      match s with
      | EmptyString => inl "Expecting value"
      | String c rest =>
          if Ascii.eqb c (ascii_of_nat 34) then
            match scanstring rest "" with
            | inl msg => inl msg
            | inr (text, rest') => inr (PStr text, rest')
            end
          else if Ascii.eqb c "{" then
            match skip_whitespace rest with
            | String "}" rest' => inr (PDict [], rest')
            | rest' => parse_object fuel' rest' []
            end
          else if Ascii.eqb c "[" then
            match skip_whitespace rest with
            | String "]" rest' => inr (PList [], rest')
            | rest' => parse_array fuel' rest' []
            end
          else
            match strip_prefix "null" s, strip_prefix "true" s, strip_prefix "false" s with
            | Some r, _, _ => inr (PNone, r)
            | _, Some r, _ => inr (PBool true, r)
            | _, _, Some r => inr (PBool false, r)
            | None, None, None =>
                match strip_prefix "NaN" s, strip_prefix "Infinity" s,
                      strip_prefix "-Infinity" s with
                | Some r, _, _ => inr (PFloat "NaN", r)
                | _, Some r, _ => inr (PFloat "Infinity", r)
                | _, _, Some r => inr (PFloat "-Infinity", r)
                | None, None, None =>
                    match match_number s with
                    | Some res => inr res
                    | None => inl "Expecting value"
                    end
                end
            end
      end
  end
with parse_array (fuel : nat) (s : string) (items : list pyobj) : string + (pyobj * string) :=
  match fuel with
  | O => inl "Expecting value"
  | S fuel' =>
      match scan_once fuel' s with
      | inl msg => inl msg
      | inr (v, rest) =>
          match skip_whitespace rest with
          | String "]" rest' => inr (PList (items ++ [v])%list, rest')
          | String "," rest' => parse_array fuel' (skip_whitespace rest') (items ++ [v])%list
          | _ => inl "Expecting ',' delimiter"
          end
      end
  end
with parse_object (fuel : nat) (s : string) (items : list (string * pyobj))
  : string + (pyobj * string) :=
  match fuel with
  | O => inl "Expecting value"
  | S fuel' =>
      match s with
      | String c rest =>
          if Ascii.eqb c (ascii_of_nat 34) then
            match scanstring rest "" with
            | inl msg => inl msg
            | inr (key, rest1) =>
                match skip_whitespace rest1 with
                | String ":" rest2 =>
                    match scan_once fuel' (skip_whitespace rest2) with
                    | inl msg => inl msg
                    | inr (v, rest3) =>
                        match skip_whitespace rest3 with
                        | String "}" rest' => inr (PDict (dict_set key v items), rest')
                        | String "," rest' =>
                            parse_object fuel' (skip_whitespace rest') (dict_set key v items)
                        | _ => inl "Expecting ',' delimiter"
                        end
                    end
                | _ => inl "Expecting ':' delimiter"
                end
            end
          else inl "Expecting property name enclosed in double quotes"
      | EmptyString => inl "Expecting property name enclosed in double quotes"
      end
  end.

(** [json.loads(s)]: one value, white space allowed around it and nothing
    else.  The message of the exception names the kind of error, as [e.msg]
    does, without the position.  Not modelled: the limits CPython puts on
    the nesting depth and on the number of digits of an integer. *)
Definition loads (s : string) : exn + pyobj :=
  match scan_once (2 * String.length s + 2) (skip_whitespace s) with
  | inl msg => inl (JSONDecodeError msg)
  | inr (v, rest) =>
      match skip_whitespace rest with
      | EmptyString => inr v
      | String _ _ => inl (JSONDecodeError "Extra data")
      end
  end.

End Json.

(** ** Effects: state, exceptions, [try] / [except] *)

Module Effect.

Inductive Outcome (A : Type) : Type :=
| Returned (a : A)
| Raised (e : exn).
Arguments Returned {A} a.
Arguments Raised {A} e.

(** A computation over a state [St]: it returns or raises, and leaves a
    state behind in both cases. *)
Definition M (St A : Type) : Type := St -> Outcome A * St.

Definition ret {St A : Type} (a : A) : M St A := fun s => (Returned a, s).

Definition raise {St A : Type} (e : exn) : M St A := fun s => (Raised e, s).

Definition bind {St A B : Type} (c : M St A) (k : A -> M St B) : M St B :=
  fun s =>
    match c s with
    | (Returned a, s') => k a s'
    | (Raised e, s') => (Raised e, s')
    end.

(** The result of a pure call that may raise. *)
Definition lift {St A : Type} (r : exn + A) : M St A :=
  match r with
  | inl e => raise e
  | inr a => ret a
  end.

(** [try: body / except cls as e: handler e], where [catches e] tells
    whether [e] is an instance of [cls].  What [body] did to the state
    before it raised stays done. *)
Definition try_except_if {St A : Type} (catches : exn -> bool)
    (body : M St A) (handler : exn -> M St A) : M St A :=
  fun s =>
    match body s with
    | (Returned a, s') => (Returned a, s')
    | (Raised e, s') => if catches e then handler e s' else (Raised e, s')
    end.

(** [try: body / except Exception as e: handler e] *)
Definition try_except {St A : Type} : M St A -> (exn -> M St A) -> M St A :=
  try_except_if (fun _ => true).

Declare Scope effect_scope.
Delimit Scope effect_scope with effect.
Notation "x <- c ;; k" := (bind c (fun x => k))
  (at level 61, c at next level, right associativity) : effect_scope.
Notation "c ;; k" := (bind c (fun _ => k))
  (at level 61, right associativity) : effect_scope.

End Effect.
Export Effect.
Local Open Scope effect_scope.

(** ** The data exchanged with the reasoning engine and the database *)

(** [tool_call.function]: the name of the tool and its argument payload, a
    JSON text. *)
Record Function : Type := {
  fn_name : string;
  fn_arguments : string
}.

(** A tool call requested by the engine: [tool_call.id] and
    [tool_call.function]. *)
Record ToolCall : Type := {
  tc_id : string;
  tc_function : Function
}.

(** [response.choices[0].message]: [content] and [tool_calls], each of which
    can be [None]. *)
Record ChatCompletionMessage : Type := {
  msg_content : option string;
  msg_tool_calls : option (list ToolCall)
}.

(** An entry of the conversation [messages]: the dictionaries the code
    builds, and the engine's response objects appended as they are. *)
Inductive Message : Type :=
| SystemMessage (content : string)
| UserMessage (content : string)
| AssistantMessage (response_message : ChatCompletionMessage)
| ToolMessage (tool_call_id name content : string).

(** The keyword arguments of [client.chat.completions.create]. *)
Record ChatRequest : Type := {
  req_model : string;
  req_messages : list Message;
  req_tools : option (list pyobj);
  req_tool_choice : option string;
  req_temperature : option string
}.

(** A row of [PRAGMA table_info]: [(cid, name, type, notnull, dflt_value,
    pk)]. *)
Record TableInfoRow : Type := {
  ti_cid : Z;
  ti_name : string;
  ti_type : string;
  ti_notnull : Z;
  ti_dflt_value : pyobj;
  ti_pk : Z
}.

(** A [pandas.DataFrame] read from a query: the column labels and the rows,
    one cell per column. *)
Record DataFrame : Type := {
  df_columns : list string;
  df_rows : list (list Cell)
}.

(** [len(df)] *)
Definition df_len (df : DataFrame) : Z := Z.of_nat (length (df_rows df)).

(** [df.empty]: an axis of the frame has length 0. *)
Definition df_empty (df : DataFrame) : bool :=
  match df_columns df, df_rows df with
  | [], _ | _, [] => true
  | _ :: _, _ :: _ => false
  end.

(** [df.head(n)] *)
Definition df_head (n : nat) (df : DataFrame) : DataFrame :=
  {| df_columns := df_columns df; df_rows := firstn n (df_rows df) |}.

(** [df.to_dict('records')]: one dictionary per row, from the column labels
    to the cells. *)
Definition df_to_dict_records (df : DataFrame) : list (list (string * Cell)) :=
  map (fun row => dict_zip (df_columns df) row) (df_rows df).

(** ** The outside world

    What the notebook calls and does not define: the OpenAI client, the
    SQLite database file [chinook.db] reached through [sqlite3] and
    [pandas], and [str] on objects that are not strings.  [World] is the
    state of all of it.

    - [chat_completions_create req w]: the message of the first choice of
      the response, or the exception raised by the call, and the world
      after it.
    - [sqlite3_connect w]: the exception that opening the database raises,
      if any.
    - [sqlite_master w]: the rows [(type, name)] of the schema table; reading
      it does not fail once connected.
    - [pragma_table_info t w] and [select_all t w]: what executing
      [PRAGMA table_info(t)] and [SELECT * FROM t] gives, [t] being written
      into the statement as it is: the rows, or the exception; for
      [select_all] with the column names of [cursor.description].
    - [read_sql_query q w]: [pd.read_sql_query(q, conn)]; the statement is
      the caller's and may change the world.
    - [py_str x]: [str(x)]. *)
Class Runtime : Type := {
  World : Type;
  chat_completions_create : ChatRequest -> World -> (exn + ChatCompletionMessage) * World;
  sqlite3_connect : World -> option exn;
  sqlite_master : World -> list (string * string);
  pragma_table_info : string -> World -> exn + list TableInfoRow;
  select_all : string -> World -> exn + (list string * list (list Cell));
  read_sql_query : pyobj -> World -> (exn + DataFrame) * World;
  py_str : pyobj -> string
}.

(** What the program does to the outside, latest first: a call of the
    engine, a line printed before a tool runs. *)
Inductive Event : Type :=
| Create (request : ChatRequest)
| Printed (function_name : string) (function_args : pyobj).

Record State `{Runtime} : Type := {
  world : World;
  trace : list Event
}.

(** ** Sorting, for [ORDER BY name] (SQLite's BINARY collation: byte order) *)

Fixpoint insert_sorted (x : string) (l : list string) : list string :=
  match l with
  | [] => [x]
  | y :: l' => if String.leb x y then x :: l else y :: insert_sorted x l'
  end.

Fixpoint order_by (l : list string) : list string :=
  match l with
  | [] => []
  | x :: l' => insert_sorted x (order_by l')
  end.

(** ** The data-access tools (notebook cell 1) *)

Section Tools.
Context `{RT : Runtime}.

(** Computations of the notebook. *)
Definition Run (A : Type) : Type := M State A.

(** [sqlite3.connect('chinook.db')] *)
Definition connect : Run unit :=
  fun s =>
    match sqlite3_connect (world s) with
    | Some e => (Raised e, s)
    | None => (Returned tt, s)
    end.

(** A read of the connected database. *)
Definition read_db {A : Type} (q : World -> exn + A) : Run A :=
  fun s =>
    match q (world s) with
    | inl e => (Raised e, s)
    | inr a => (Returned a, s)
    end.

(** [pd.read_sql_query(query, conn)] *)
Definition pd_read_sql_query (sql : pyobj) : Run DataFrame :=
  fun s =>
    let (r, w) := read_sql_query sql (world s) in
    (match r with inl e => Raised e | inr df => Returned df end,
     {| world := w; trace := trace s |}).

(** [client.chat.completions.create(...)], then [.choices[0].message] *)
Definition create (request : ChatRequest) : Run ChatCompletionMessage :=
  fun s =>
    let (r, w) := chat_completions_create request (world s) in
    (match r with inl e => Raised e | inr m => Returned m end,
     {| world := w; trace := Create request :: trace s |}).

(** [print(f"... Calling {function_name} with args: {function_args}")] *)
Definition print_calling (function_name : string) (function_args : pyobj) : Run unit :=
  fun s =>
    (Returned tt,
     {| world := world s; trace := Printed function_name function_args :: trace s |}).

(** [f"{x}"] *)
Definition format_value (x : pyobj) : string :=
  match x with
  | PStr s => s
  | _ => py_str x
  end.

(** [x.split(',')] *)
Definition py_split_comma (x : pyobj) : Run (list string) :=
  match x with
  | PStr s => ret (split_comma s)
  | _ => raise (AttributeError ("'" ++ type_name x ++ "' object has no attribute 'split'"))
  end.

(** [json.dumps({"error": str(e), "message": message}, indent=2)], the
    return value of the [except] clause of every tool. *)
Definition error_msg (e : exn) (message : string) : string :=
  Json.dumps (Some 2) (PDict [("error", PStr (str_of_exn e)); ("message", PStr message)]).

(** The dictionary [result_data] of [query_sql_database] for a frame that is
    not empty, as [json.dumps] reads it: with the records of [data] as JSON
    objects, or the [TypeError] of a [bytes] among the cells of [data]. *)
Definition result_data (df : DataFrame) : exn + pyobj :=
  if (df_len df >? 100)%Z then
    on_value
      (fun data =>
         PDict [("message", PStr ("Query returned " ++ str_of_int (df_len df)
                                    ++ " rows. Showing first 100 rows."));
                ("data", PList data);
                ("total_rows", PInt (df_len df))])
      (Json.records (df_to_dict_records (df_head 100 df)))
  else
    on_value
      (fun data =>
         PDict [("message", PStr ("Query returned " ++ str_of_int (df_len df) ++ " rows."));
                ("data", PList data);
                ("total_rows", PInt (df_len df))])
      (Json.records (df_to_dict_records df)).

Definition no_results : pyobj :=
  PDict [("message", PStr "Query executed successfully but returned no results.")].

(** Execute a SQL query against the Chinook database: a JSON string with
    the query results or an error message.  [json.dumps(result_data,
    indent=2)] is inside the [try]: what it raises is caught as well.
    ([conn.close()] changes nothing the code observes and is left out, here
    and below.) *)
Definition query_sql_database (query : pyobj) : Run string :=
  try_except
    (connect ;;
     df <- pd_read_sql_query query ;;
     if df_empty df then ret (Json.dumps None no_results)
     else
       result <- lift (result_data df) ;;
       ret (Json.dumps (Some 2) result))
    (fun e =>
       ret (error_msg e "Query failed. Please check your SQL syntax and table/column names.")).

(** [SELECT name FROM sqlite_master WHERE type='table' AND name=?], then
    [cursor.fetchone()]: the first matching row, if any. *)
Definition fetch_table (table_name : string) (w : World) : option (string * string) :=
  find (fun row => String.eqb (fst row) "table" && String.eqb (snd row) table_name)
       (sqlite_master w).

(** The entry of one column in [schema]. *)
Definition schema_entry (col : TableInfoRow) : pyobj :=
  PDict [("column_name", PStr (ti_name col));
         ("data_type", PStr (ti_type col));
         ("not_null", PBool (negb (ti_notnull col =? 0)%Z));
         ("primary_key", PBool (negb (ti_pk col =? 0)%Z))].

(** The entry of a table that exists, from the rows of its [PRAGMA
    table_info], the column names of [cursor.description] and the rows
    fetched by [SELECT * FROM ... LIMIT 3]; as [json.dumps] will read it
    once the loop is over: with the sample rows as JSON objects, or the
    [TypeError] of a [bytes] among their cells. *)
Definition table_entry (columns : list TableInfoRow) (column_names : list string)
    (sample_rows : list (list Cell)) : exn + pyobj :=
  let sample_data := map (fun row => dict_zip column_names row) sample_rows in
  on_value
    (fun rows =>
       PDict [("schema", PList (map schema_entry columns));
              ("sample_rows", PList rows);
              ("row_count", PInt (Z.of_nat (length sample_data)))])
    (Json.records sample_data).

Definition missing_entry (table_name : string) : pyobj :=
  PDict [("error", PStr ("Table '" ++ table_name ++ "' does not exist"))].

(** The body of [for table_name in table_list], from the dictionary
    [result["tables"]] built so far to the one after the loop.  Nothing is
    serialized in the loop: an entry that holds a [bytes] is stored like any
    other. *)
Fixpoint describe_tables (table_list : list string)
    (result_tables : list (string * (exn + pyobj)))
  : Run (list (string * (exn + pyobj))) :=
  match table_list with
  | [] => ret result_tables
  | table_name :: rest =>
      found <- read_db (fun w => inr (fetch_table table_name w)) ;;
      match found with
      | None =>
          describe_tables rest
            (dict_set table_name (inr (missing_entry table_name)) result_tables)
      | Some _ =>
          columns <- read_db (pragma_table_info table_name) ;;
          selected <- read_db (select_all table_name) ;;
          let sample_rows := firstn 3 (snd selected) in
          let column_names := fst selected in
          describe_tables rest
            (dict_set table_name (table_entry columns column_names sample_rows) result_tables)
      end
  end.

(** [[table.strip() for table in tables.split(',')]] *)
Definition table_list_of (tables : string) : list string := map strip (split_comma tables).

(** [result["tables"]] as [json.dumps] reads it, entry after entry. *)
Definition serialized (result_tables : list (string * (exn + pyobj)))
  : exn + list (string * pyobj) :=
  for_each (fun kv => on_value (pair (fst kv)) (snd kv)) result_tables.

(** Get schema information and sample rows for specified tables, given as
    a comma-separated list of table names.  [json.dumps(result, indent=2)]
    comes after the loop, inside the [try]. *)
Definition info_sql_database (tables : pyobj) : Run string :=
  try_except
    (connect ;;
     pieces <- py_split_comma tables ;;
     let table_list := map strip pieces in
     stored <- describe_tables table_list [] ;;
     result_tables <- lift (serialized stored) ;;
     ret (Json.dumps (Some 2) (PDict [("tables", PDict result_tables)])))
    (fun e => ret (error_msg e "Failed to retrieve table information.")).

(** [SELECT name FROM sqlite_master WHERE type='table' ORDER BY name] *)
Definition select_table_names (w : World) : list string :=
  order_by (map snd (filter (fun row => String.eqb (fst row) "table") (sqlite_master w))).

(** The dictionary [result] of [list_sql_database]. *)
Definition list_result (table_names : list string) : pyobj :=
  PDict [("message", PStr ("Found " ++ str_of_int (Z.of_nat (length table_names))
                             ++ " tables in the database"));
         ("tables", PList (map PStr table_names))].

(** List all available tables in the Chinook database. *)
Definition list_sql_database : Run string :=
  try_except
    (connect ;;
     table_names <- read_db (fun w => inr (select_table_names w)) ;;
     ret (Json.dumps (Some 2) (list_result table_names)))
    (fun e => ret (error_msg e "Failed to list database tables.")).

Definition checker_system_prompt : string :=
  join (String LF "")
    ["You are an expert SQLite query checker and fixer.";
     "            Your job is to analyze a given SQLite query, identify any syntax or logical errors, and return a corrected version if needed.";
     "            You must always respond only in the following JSON format (no extra commentary or markdown):";
     "            {" ++ quoted "has_error" ++ ": boolean, " ++ quoted "corrected_query" ++ ": "
       ++ quoted "string" ++ ", " ++ quoted "explanation" ++ ": " ++ quoted "string" ++ " }";
     "";
     "            If the query is valid, has_error should be false, and corrected_query should match the input.";
     "";
     "            If there are issues, has_error should be true, and corrected_query should contain the fixed query.";
     "";
     "            In explanation, briefly describe what was fixed or state "
       ++ quoted "Query is valid." ++ " if there was nothing to change.";
     "";
     "            When checking, look for:";
     "";
     "            Common typos in SQL keywords (e.g. SELEC → SELECT, FORM → FROM)";
     "";
     "            Incorrect table or column references (e.g. missing FROM clause)";
     "";
     "            Missing or misplaced WHERE, JOIN, or GROUP BY clauses";
     "";
     "            Improper string or identifier quoting";
     "";
     "            Incomplete statements (e.g. missing semicolon, unclosed parentheses)";
     "";
     "            SQLite-specific limitations (e.g. no RIGHT JOIN)";
     "";
     "            Only return the JSON. Do not include explanations outside the JSON object or any formatting.";
     "        "].

(** The request [query_sql_checker] sends for [query]. *)
Definition checker_request (query : pyobj) : ChatRequest :=
  {| req_model := "gpt-4o";
     req_messages := [SystemMessage checker_system_prompt;
                      UserMessage ("Validate this SQLite query: " ++ format_value query)];
     req_tools := None;
     req_tool_choice := None;
     req_temperature := Some "0.1" |}.

(** [None] or a [str], as a [pyobj]. *)
Definition optional_str (x : option string) : pyobj :=
  match x with
  | Some s => PStr s
  | None => PNone
  end.

(** The dictionary built in the [except json.JSONDecodeError] clause. *)
Definition checker_fallback (query : pyobj) (content : option string) : pyobj :=
  PDict [("has_errors", PBool false);
         ("errors", PList []);
         ("corrected_query", query);
         ("explanation", optional_str content)].

(** Validate a SQL query for common mistakes before execution: the engine
    is asked, and its reply is parsed as JSON. *)
Definition query_sql_checker (query : pyobj) : Run string :=
  try_except
    (response_message <- create (checker_request query) ;;
     result <- try_except_if is_JSONDecodeError
                 (match msg_content response_message with
                  | None => raise (JSONDecodeError "Empty response")
                  | Some content => lift (Json.loads content)
                  end)
                 (fun _ => ret (checker_fallback query (msg_content response_message))) ;;
     ret (Json.dumps (Some 2) result))
    (fun e => ret (error_msg e "Failed to validate query.")).

End Tools.

(** ** The tool definitions and the registry (notebook cell 2) *)

(** One element of [tools]: a function with at most one parameter, a
    string. *)
Definition tool_definition (name description : string)
    (parameter : option (string * string)) : pyobj :=
  let (properties, required) :=
    match parameter with
    | Some (p, d) =>
        ([(p, PDict [("type", PStr "string"); ("description", PStr d)])], [PStr p])
    | None => ([], [])
    end in
  PDict [("type", PStr "function");
         ("function",
          PDict [("name", PStr name);
                 ("description", PStr description);
                 ("parameters",
                  PDict [("type", PStr "object");
                         ("properties", PDict properties);
                         ("required", PList required)])])].

Definition tools : list pyobj :=
  [tool_definition "query_sql_database"
     "Execute a SQL query against the Chinook database. Returns results or error message."
     (Some ("query", "A detailed and correct SQL query to execute against the database"));
   tool_definition "info_sql_database"
     "Get schema information and sample rows for specified tables. Use list_sql_database first to see available tables."
     (Some ("tables",
            "Comma-separated list of table names to get information for (e.g., 'Artist, Album, Track')"));
   tool_definition "list_sql_database"
     "List all available tables in the Chinook database."
     None;
   tool_definition "query_sql_checker"
     "Validate a SQL query for common mistakes before execution. Always use this before executing queries."
     (Some ("query", "SQL query to validate for syntax errors and common mistakes"))].

Section Agent.
Context `{RT : Runtime}.

(** A function of the notebook, as Python sees it when it calls it: its
    name, its parameters (none, or one) and its body. *)
Inductive PyFunction : Type :=
| Def0 (name : string) (body : Run string)
| Def1 (name param : string) (body : pyobj -> Run string).

(** [function()] *)
Definition call (function : PyFunction) : Run string :=
  match function with
  | Def0 _ body => body
  | Def1 name param _ =>
      raise (TypeError (name ++ "() missing 1 required positional argument: '" ++ param ++ "'"))
  end.

(** The call of [function] with [**arguments] as its only argument:
    [arguments] has to be a mapping, every key has to name a parameter and
    every parameter has to be given.  The messages
    are CPython 3.11's. *)
Definition call_kwargs (function : PyFunction) (arguments : pyobj) : Run string :=
  let name := match function with Def0 n _ | Def1 n _ _ => n end in
  match arguments with
  | PDict kwargs =>
      let is_param (k : string) : bool :=
        match function with
        | Def0 _ _ => false
        | Def1 _ param _ => String.eqb k param
        end in
      match find (fun kv => negb (is_param (fst kv))) kwargs with
      | Some (k, _) =>
          raise (TypeError (name ++ "() got an unexpected keyword argument '" ++ k ++ "'"))
      | None =>
          match function with
          | Def0 _ body => body
          | Def1 _ param body =>
              match dict_get param kwargs with
              | Some v => body v
              | None =>
                  raise (TypeError (name ++ "() missing 1 required positional argument: '"
                                      ++ param ++ "'"))
              end
          end
      end
  | _ =>
      raise (TypeError ("__main__." ++ name ++ "() argument after ** must be a mapping, not "
                          ++ type_name arguments))
  end.

(** Function mapping for tool execution. *)
Definition available_functions : list (string * PyFunction) :=
  [("query_sql_database", Def1 "query_sql_database" "query" query_sql_database);
   ("info_sql_database", Def1 "info_sql_database" "tables" info_sql_database);
   ("list_sql_database", Def0 "list_sql_database" list_sql_database);
   ("query_sql_checker", Def1 "query_sql_checker" "query" query_sql_checker)].

(** ** The dispatcher and the agent loop (notebook cells 4 and 5) *)

(** [json.dumps({"error": text})] *)
Definition error_result (text : string) : string :=
  Json.dumps None (PDict [("error", PStr text)]).

(** Execute a function call with the given arguments. *)
Definition execute_function_call (function_name : string) (arguments : pyobj) : Run string :=
  match dict_get function_name available_functions with
  | Some function =>
      try_except
        (if String.eqb function_name "list_sql_database" then call function
         else call_kwargs function arguments)
        (fun e => ret (error_result (str_of_exn e)))
  | None => ret (error_result ("Function " ++ function_name ++ " not found"))
  end.

(** [system_message], after [.format(dialect="SQLite", top_k=5)]. *)
Definition system_message : string :=
  join (String LF "")
    [""; "You are an agent designed to interact with a SQL database.";
     "Given an input question, create a syntactically correct SQLite query to run,";
     "then look at the results of the query and return the answer. Unless the user";
     "specifies a specific number of examples they wish to obtain, always limit your";
     "query to at most 5 results.";
     "";
     "You can order the results by a relevant column to return the most interesting";
     "examples in the database. Never query for all the columns from a specific table,";
     "only ask for the relevant columns given the question.";
     "";
     "You MUST double check your query before executing it. If you get an error while";
     "executing a query, rewrite the query and try again.";
     "";
     "DO NOT make any DML statements (INSERT, UPDATE, DELETE, DROP etc.) to the";
     "database.";
     "";
     "To start you should ALWAYS look at the tables in the database to see what you";
     "can query. Do NOT skip this step.";
     "";
     "Then you should query the schema of the most relevant tables.";
     ""].

(** The request of one turn of [ask]. *)
Definition ask_request (messages : list Message) : ChatRequest :=
  {| req_model := "gpt-4o";
     req_messages := messages;
     req_tools := Some tools;
     req_tool_choice := Some "auto";
     req_temperature := None |}.

(** [for tool_call in response_message.tool_calls]: parse the arguments,
    print, run the tool, append the tool message.  The value is [messages]
    after the loop. *)
Fixpoint execute_tool_calls (tool_calls : list ToolCall) (messages : list Message)
  : Run (list Message) :=
  match tool_calls with
  | [] => ret messages
  | tool_call :: rest =>
      let function_name := fn_name (tc_function tool_call) in
      function_args <- lift (Json.loads (fn_arguments (tc_function tool_call))) ;;
      print_calling function_name function_args ;;
      function_response <- execute_function_call function_name function_args ;;
      execute_tool_calls rest
        (messages ++ [ToolMessage (tc_id tool_call) function_name function_response])%list
  end.

(** What [ask] returns: a [str], or [None] when the engine's final message
    has no content. *)
Definition Answer : Type := option string.

Definition exhausted : Answer :=
  Some "Maximum iterations reached. Please try a simpler question.".

(** [while iteration < max_iterations].  The recursion is on [fuel], an
    upper bound of the number of turns still to run; [None] is returned
    when [fuel] is used up with the loop condition still true, which [ask]
    rules out by its choice of [fuel]. *)
Fixpoint ask_loop (fuel : nat) (max_iterations iteration : Z) (messages : list Message)
  : Run (option Answer) :=
  if (iteration <? max_iterations)%Z then
    match fuel with
    | O => ret None
    | S fuel' =>
        let iteration := (iteration + 1)%Z in
        response_message <- create (ask_request messages) ;;
        let messages := (messages ++ [AssistantMessage response_message])%list in
        match msg_tool_calls response_message with
        | Some (tool_call :: rest) =>
            messages <- execute_tool_calls (tool_call :: rest) messages ;;
            ask_loop fuel' max_iterations iteration messages
        | Some [] | None => ret (Some (msg_content response_message))
        end
    end
  else ret (Some exhausted).

(** Ask a question and let the agent use tools to answer it. *)
Definition ask (question : string) (max_iterations : Z) : Run (option Answer) :=
  ask_loop (Z.to_nat max_iterations) max_iterations 0
    [SystemMessage system_message; UserMessage question].

(** The number of turns of [ask] in a trace: the engine calls that offer the
    tools. *)
Definition think_entries (events : list Event) : nat :=
  length (filter (fun ev => match ev with
                            | Create request =>
                                match req_tools request with Some _ => true | None => false end
                            | Printed _ _ => false
                            end) events).

(** The number of tool runs of [ask] in a trace. *)
Definition tool_invocations (events : list Event) : nat :=
  length (filter (fun ev => match ev with Printed _ _ => true | Create _ => false end) events).

End Agent.

(** ** Test doubles: a scripted engine and a small database

    A concrete [Runtime] on which the notebook's functions run: the engine
    plays a script, the database holds a few tables of Chinook and answers
    a fixed set of queries. *)

Module Doubles.

Record Table : Type := {
  tbl_name : string;
  tbl_info : list TableInfoRow;
  tbl_rows : list (list Cell)
}.

(** Rows without a BLOB. *)
Definition values (rows : list (list pyobj)) : list (list Cell) := map (map Value) rows.

(** The database: [None] when the file cannot be opened, and the queries
    [read_sql_query] knows, with their frames. *)
Record FakeWorld : Type := {
  fw_tables : option (list Table);
  fw_queries : list (string * DataFrame)
}.

Definition unable_to_open : exn :=
  OtherError "sqlite3.OperationalError" "unable to open database file".

Definition fake_connect (w : FakeWorld) : option exn :=
  match fw_tables w with
  | Some _ => None
  | None => Some unable_to_open
  end.

Definition fake_tables (w : FakeWorld) : list Table :=
  match fw_tables w with
  | Some ts => ts
  | None => []
  end.

Definition fake_master (w : FakeWorld) : list (string * string) :=
  map (fun t => ("table", tbl_name t)) (fake_tables w).

Definition find_table (name : string) (w : FakeWorld) : option Table :=
  find (fun t => String.eqb (tbl_name t) name) (fake_tables w).

Definition fake_table_info (name : string) (w : FakeWorld) : exn + list TableInfoRow :=
  match find_table name w with
  | Some t => inr (tbl_info t)
  | None => inr []
  end.

Definition fake_select_all (name : string) (w : FakeWorld)
  : exn + (list string * list (list Cell)) :=
  match find_table name w with
  | Some t => inr (map ti_name (tbl_info t), tbl_rows t)
  | None => inl (OtherError "sqlite3.OperationalError" ("no such table: " ++ name))
  end.

Definition fake_read_sql_query (sql : pyobj) (w : FakeWorld) : (exn + DataFrame) * FakeWorld :=
  match fw_tables w, sql with
  | None, _ => (inl unable_to_open, w)
  | Some _, PStr text =>
      match dict_get text (fw_queries w) with
      | Some df => (inr df, w)
      | None =>
          (inl (OtherError "pandas.errors.DatabaseError"
                  ("Execution failed on sql '" ++ text ++ "': not a query of this double")), w)
      end
  | Some _, _ =>
      (inl (TypeError "Query must be a string unless using sqlalchemy."), w)
  end.

(** [str(x)], exact on [None], [bool] and [int]; the JSON text stands in for
    the other values. *)
Definition fake_str (x : pyobj) : string :=
  match x with
  | PNone => "None"
  | PBool true => "True"
  | PBool false => "False"
  | PInt z => str_of_int z
  | _ => Json.dumps None x
  end.

(** The runtime whose engine answers [engine request] to [request]. *)
Definition fake_runtime (engine : ChatRequest -> exn + ChatCompletionMessage) : Runtime :=
  {| World := FakeWorld;
     chat_completions_create := fun request w => (engine request, w);
     sqlite3_connect := fake_connect;
     sqlite_master := fake_master;
     pragma_table_info := fake_table_info;
     select_all := fake_select_all;
     read_sql_query := fake_read_sql_query;
     py_str := fake_str |}.

Definition column (cid : Z) (name type : string) (notnull pk : Z) : TableInfoRow :=
  {| ti_cid := cid; ti_name := name; ti_type := type; ti_notnull := notnull;
     ti_dflt_value := PNone; ti_pk := pk |}.

Definition Artist : Table :=
  {| tbl_name := "Artist";
     tbl_info := [column 0 "ArtistId" "INTEGER" 1 1; column 1 "Name" "NVARCHAR(120)" 0 0];
     tbl_rows := values
                   [[PInt 1; PStr "AC/DC"]; [PInt 2; PStr "Accept"]; [PInt 3; PStr "Aerosmith"];
                    [PInt 4; PStr "Alanis Morissette"]; [PInt 5; PStr "Alice In Chains"]] |}.

Definition Genre : Table :=
  {| tbl_name := "Genre";
     tbl_info := [column 0 "GenreId" "INTEGER" 1 1; column 1 "Name" "NVARCHAR(120)" 0 0];
     tbl_rows := values [[PInt 1; PStr "Rock"]; [PInt 2; PStr "Jazz"]] |}.

Definition Album : Table :=
  {| tbl_name := "Album";
     tbl_info := [column 0 "AlbumId" "INTEGER" 1 1; column 1 "Title" "NVARCHAR(160)" 1 0;
                  column 2 "ArtistId" "INTEGER" 1 0];
     tbl_rows := values
                   [[PInt 1; PStr "For Those About To Rock We Salute You"; PInt 1];
                    [PInt 2; PStr "Balls to the Wall"; PInt 2];
                    [PInt 3; PStr "Restless and Wild"; PInt 2];
                    [PInt 4; PStr "Let There Be Rock"; PInt 1]] |}.

(** The frames of three queries: five rows, no row, 150 rows. *)
Definition queries : list (string * DataFrame) :=
  [("SELECT * FROM Artist LIMIT 5",
    {| df_columns := ["ArtistId"; "Name"]; df_rows := tbl_rows Artist |});
   ("SELECT * FROM Artist WHERE ArtistId = 0",
    {| df_columns := ["ArtistId"; "Name"]; df_rows := [] |});
   ("SELECT TrackId FROM Track LIMIT 150",
    {| df_columns := ["TrackId"];
       df_rows := values (map (fun n => [PInt (Z.of_nat n)]) (seq 1 150)) |})].

(** An excerpt of Chinook, its tables stored out of order. *)
Definition chinook : FakeWorld :=
  {| fw_tables := Some [Genre; Artist; Album]; fw_queries := queries |}.





(** The state a run starts in: nothing traced yet. *)
Definition initial (engine : ChatRequest -> exn + ChatCompletionMessage) (w : FakeWorld)
  : @State (fake_runtime engine) :=
  @Build_State (fake_runtime engine) w [].

Definition tool_call (id name arguments : string) : ToolCall :=
  {| tc_id := id; tc_function := {| fn_name := name; fn_arguments := arguments |} |}.

(** An engine that requests [calls] on every turn and says nothing. *)
Definition requesting (calls : list ToolCall) (_ : ChatRequest)
  : exn + ChatCompletionMessage :=
  inr {| msg_content := None; msg_tool_calls := Some calls |}.

(** An engine that says [text] and requests nothing. *)
Definition saying (text : string) (_ : ChatRequest) : exn + ChatCompletionMessage :=
  inr {| msg_content := Some text; msg_tool_calls := None |}.

(** An engine that requests the list of tables on every turn. *)
Definition always_listing : ChatRequest -> exn + ChatCompletionMessage :=
  requesting [tool_call "call_0" "list_sql_database" "{}"].

(** An engine whose tool call has a truncated argument payload. *)
Definition malformed_arguments : ChatRequest -> exn + ChatCompletionMessage :=
  requesting [tool_call "call_0" "query_sql_database" "{"].

(** An engine that answers in prose, whatever it is asked. *)
Definition prose : ChatRequest -> exn + ChatCompletionMessage :=
  saying "The query looks fine to me.".

Definition question : string := "How many artists are there?".

(** The number of engine replies in a conversation. *)
Definition turns (messages : list Message) : nat :=
  length (filter (fun m => match m with AssistantMessage _ => true | _ => false end) messages).

(** An engine that plays [script], one reply per turn of the conversation,
    and then says [final]. *)
Definition scripted (script : list (list ToolCall)) (final : string) (request : ChatRequest)
  : exn + ChatCompletionMessage :=
  match nth_error script (turns (req_messages request)) with
  | Some calls => inr {| msg_content := None; msg_tool_calls := Some calls |}
  | None => inr {| msg_content := Some final; msg_tool_calls := None |}
  end.

(** An engine that lists the tables, then describes one, then answers. *)
Definition inspecting : ChatRequest -> exn + ChatCompletionMessage :=
  scripted [[tool_call "call_1" "list_sql_database" "{}"];
            [tool_call "call_2" "info_sql_database"
               ("{" ++ quoted "tables" ++ ": " ++ quoted "Artist" ++ "}")]]
           "There are 5 artists.".

End Doubles.

(** ** Vocabulary of the properties *)

(** The value of the key [k] of a dictionary, [None] for a missing key or
    for a value that is not a dictionary. *)
Definition py_get (k : string) (x : pyobj) : option pyobj :=
  match x with
  | PDict d => dict_get k d
  | _ => None
  end.

(** Byte order on strings, as a relation. *)
Definition lexical_le (a b : string) : Prop := String.leb a b = true.

Section Vocabulary.
Context `{RT : Runtime}.

(** [c] returns in every state: it never raises. *)
Definition never_raises {A : Type} (c : Run A) : Prop :=
  forall s, exists a s', c s = (Returned a, s').

(** [c] leaves the counts of turns and of tool runs as they are. *)
Definition silent {A : Type} (c : Run A) : Prop :=
  forall s, think_entries (trace (snd (c s))) = think_entries (trace s)
            /\ tool_invocations (trace (snd (c s))) = tool_invocations (trace s).

(** The body of a registered function never raises and is silent. *)
Definition well_behaved (function : PyFunction) : Prop :=
  match function with
  | Def0 _ body => never_raises body /\ silent body
  | Def1 _ _ body => forall v, never_raises (body v) /\ silent (body v)
  end.

(** The argument payload of [tool_call] is a JSON text. *)
Definition parsable (tool_call : ToolCall) : Prop :=
  exists function_args,
    Json.loads (fn_arguments (tc_function tool_call)) = inr function_args.

(** On every turn of [ask], that is to every request that offers tools, in
    every state of the world, the engine answers with a message that
    carries at least one tool call.  Nothing is asked of its answers to the
    requests [query_sql_checker] sends, which offer none. *)
Definition always_requests_tools : Prop :=
  forall request w,
    req_tools request <> None ->
    exists m w' tool_call rest,
      chat_completions_create request w = (inr m, w')
      /\ msg_tool_calls m = Some (tool_call :: rest).

(** The same, all argument payloads being JSON texts. *)
Definition always_requests_parsable_tools : Prop :=
  forall request w,
    req_tools request <> None ->
    exists m w' tool_call rest,
      chat_completions_create request w = (inr m, w')
      /\ msg_tool_calls m = Some (tool_call :: rest)
      /\ Forall parsable (tool_call :: rest).

(** [ask] returns the exhaustion message from [s], having run [n] turns. *)
Definition exhausts_after (n : nat) (question : string) (max_iterations : Z) (s : State)
  : Prop :=
  exists s', ask question max_iterations s = (Returned (Some exhausted), s')
             /\ think_entries (trace s') = (think_entries (trace s) + n)%nat.

(** The frame a query is answered with: connecting succeeds and
    [read_sql_query] returns [df], leaving the world [w']. *)
Definition answers (query : pyobj) (s : State) (df : DataFrame) (w' : World) : Prop :=
  sqlite3_connect (world s) = None /\ read_sql_query query (world s) = (inr df, w').

(** What [describe_tables] stores for one name, when no statement
    raises. *)
Definition entry_of (w : World) (table_name : string) : option (exn + pyobj) :=
  match fetch_table table_name w with
  | None => Some (inr (missing_entry table_name))
  | Some _ =>
      match pragma_table_info table_name w, select_all table_name w with
      | inr columns, inr (column_names, rows) =>
          Some (table_entry columns column_names (firstn 3 rows))
      | _, _ => None
      end
  end.

(** The content of the engine's message is no JSON text. *)
Definition unparsable (content : option string) : Prop :=
  match content with
  | None => True
  | Some text => exists e, Json.loads text = inl e
  end.

End Vocabulary.

(** ** Vocabulary of the further properties *)


(** The message of role [tool] that answers [tool_call] with [response]. *)
Definition tool_message (tool_call : ToolCall) (response : string) : Message :=
  ToolMessage (tc_id tool_call) (fn_name (tc_function tool_call)) response.

(** The tool messages that answer [calls] with [responses], in order. *)
Fixpoint tool_messages (calls : list ToolCall) (responses : list string) : list Message :=
  match calls, responses with
  | tool_call :: calls', response :: responses' =>
      tool_message tool_call response :: tool_messages calls' responses'
  | _, _ => []
  end.

(** A conversation after its two opening messages, made of complete turns:
    an assistant message that carries tool calls, then one tool message per
    call, in the order of the calls, with the identifier and the name of
    the call. *)
Inductive complete_turns : list Message -> Prop :=
| no_turn : complete_turns []
| one_more_turn (history : list Message) (m : ChatCompletionMessage)
    (tool_call : ToolCall) (rest : list ToolCall) (responses : list string) :
    complete_turns history ->
    msg_tool_calls m = Some (tool_call :: rest) ->
    length responses = length (tool_call :: rest) ->
    complete_turns
      (history ++ AssistantMessage m :: tool_messages (tool_call :: rest) responses).

(** The keys of a dictionary after [d[name] = ...]: a new name goes
    last. *)
Definition add_key (keys : list string) (name : string) : list string :=
  if existsb (String.eqb name) keys then keys else (keys ++ [name])%list.

(** [names] without the repetitions of a name, in the order of the first
    occurrences: the keys of a dictionary filled in the order [names]. *)
Definition distinct_in_order (names : list string) : list string :=
  fold_left add_key names [].

(** The name of an element of [tools], and the names it requires. *)
Definition tool_name (definition : pyobj) : option string :=
  match py_get "function" definition with
  | Some function =>
      match py_get "name" function with
      | Some (PStr name) => Some name
      | _ => None
      end
  | None => None
  end.

Definition tool_required (definition : pyobj) : option (list pyobj) :=
  match py_get "function" definition with
  | Some function =>
      match py_get "parameters" function with
      | Some parameters =>
          match py_get "required" parameters with
          | Some (PList required) => Some required
          | _ => None
          end
      | None => None
      end
  | None => None
  end.

Section FurtherVocabulary.
Context `{RT : Runtime}.

(** The names of the parameters of a function. *)
Definition parameters (function : PyFunction) : list string :=
  match function with
  | Def0 _ _ => []
  | Def1 _ param _ => [param]
  end.

(** The value a payload gives to the only parameter [param] of a function:
    the payload is a mapping, all its keys are [param], and [param] is one
    of them. *)
Definition bound_value (param : string) (arguments : pyobj) : option pyobj :=
  match arguments with
  | PDict kwargs =>
      if forallb (fun kv => String.eqb (fst kv) param) kwargs then dict_get param kwargs
      else None
  | _ => None
  end.

(** An event a tool may leave in the trace: a printed line, or a call of
    the engine that offers no tools. *)
Definition tool_event (ev : Event) : Prop :=
  match ev with
  | Create request => req_tools request = None
  | Printed _ _ => True
  end.

(** [c] only adds events that satisfy [P] to the trace. *)
Definition adds_only {A : Type} (P : Event -> Prop) (c : Run A) : Prop :=
  forall s, exists new, trace (snd (c s)) = (new ++ trace s)%list /\ Forall P new.




(** [query_sql_database] fails with [e] in [s], leaving the world [w']:
    the connection raises [e], or [read_sql_query] does. *)
Definition query_fails (query : pyobj) (s : State) (e : exn) (w' : World) : Prop :=
  (sqlite3_connect (world s) = Some e /\ w' = world s)
  \/ (sqlite3_connect (world s) = None /\ read_sql_query query (world s) = (inl e, w')).

(** A statement about the table [t], which exists, raises [e]. *)
Definition introspection_fails (w : World) (t : string) (e : exn) : Prop :=
  fetch_table t w <> None
  /\ (pragma_table_info t w = inl e
      \/ ((exists columns, pragma_table_info t w = inr columns)
          /\ select_all t w = inl e)).

(** The conversation of [request] is the system message, the question and
    complete turns. *)
Definition opens_with (question : string) (request : ChatRequest) : Prop :=
  exists history,
    req_messages request
    = ([SystemMessage system_message; UserMessage question] ++ history)%list
    /\ complete_turns history.

End FurtherVocabulary.

(** ** More test doubles *)

Module MoreDoubles.
Import Doubles.

(** The frame of the first [n] track identifiers. *)
Definition tracks (n : nat) : DataFrame :=
  {| df_columns := ["TrackId"];
     df_rows := values (map (fun k => [PInt (Z.of_nat k)]) (seq 1 n)) |}.

(** A database whose file cannot be opened. *)
Definition unreachable : FakeWorld := {| fw_tables := None; fw_queries := [] |}.

(** A table whose name is two words. *)
Definition OrderDetails : Table :=
  {| tbl_name := "Order Details";
     tbl_info := [column 0 "OrderId" "INTEGER" 1 1];
     tbl_rows := values [[PInt 1]] |}.

Definition northwind : FakeWorld :=
  {| fw_tables := Some [Artist; OrderDetails];
     fw_queries := [("SELECT TrackId FROM Track LIMIT 100", tracks 100)] |}.

Definition has_space (name : string) : bool :=
  existsb (Ascii.eqb " ") (list_ascii_of_string name).

(** [PRAGMA table_info(t)] and [SELECT * FROM t] with [t] written as it
    is: two words are a syntax error. *)
Definition syntax_error (statement : string) : exn :=
  OtherError "sqlite3.OperationalError" ("syntax error in: " ++ statement).

Definition strict_table_info (name : string) (w : FakeWorld) : exn + list TableInfoRow :=
  if has_space name then inl (syntax_error ("PRAGMA table_info(" ++ name ++ ")"))
  else fake_table_info name w.

Definition strict_select_all (name : string) (w : FakeWorld)
  : exn + (list string * list (list Cell)) :=
  if has_space name then inl (syntax_error ("SELECT * FROM " ++ name ++ " LIMIT 3"))
  else fake_select_all name w.

(** The runtime of [fake_runtime], with a database that parses the names
    written into its statements. *)
Definition strict_runtime (engine : ChatRequest -> exn + ChatCompletionMessage) : Runtime :=
  {| World := FakeWorld;
     chat_completions_create := fun request w => (engine request, w);
     sqlite3_connect := fake_connect;
     sqlite_master := fake_master;
     pragma_table_info := strict_table_info;
     select_all := strict_select_all;
     read_sql_query := fake_read_sql_query;
     py_str := fake_str |}.

Definition strict_initial (engine : ChatRequest -> exn + ChatCompletionMessage)
    (w : FakeWorld) : @State (strict_runtime engine) :=
  @Build_State (strict_runtime engine) w [].


Definition connection_error : exn :=
  OtherError "openai.APIConnectionError" "Connection error.".

Definition list_call : ToolCall := tool_call "call_1" "list_sql_database" "{}".

Definition describe_call : ToolCall :=
  tool_call "call_2" "info_sql_database"
    ("{" ++ quoted "tables" ++ ": " ++ quoted "Artist" ++ "}").

Definition broken_call : ToolCall := tool_call "call_3" "query_sql_database" "{".



(** An engine that always fails. *)
Definition failing (_ : ChatRequest) : exn + ChatCompletionMessage := inl connection_error.

(** An engine that answers the checker with JSON of a shape of its own. *)
Definition verdict : ChatRequest -> exn + ChatCompletionMessage :=
  saying ("{" ++ quoted "verdict" ++ ": " ++ quoted "fine" ++ "}").

End MoreDoubles.

(** * Properties *)

(** ** Computations that always return, and what they leave in the trace *)

Section Effects.
Context `{RT : Runtime}.

Lemma never_raises_ret {A : Type} (a : A) : never_raises (ret a).
Proof. intros s. exists a, s. reflexivity. Qed.

Lemma never_raises_try {A : Type} (catches : exn -> bool) (body : Run A)
    (handler : exn -> Run A) :
  (forall e, catches e = true) ->
  (forall e, never_raises (handler e)) ->
  never_raises (try_except_if catches body handler).
Proof.
  intros Hall Hh s. unfold try_except_if.
  destruct (body s) as [[a | e] s'].
  - exists a, s'. reflexivity.
  - rewrite Hall. apply Hh.
Qed.

Lemma silent_ret {A : Type} (a : A) : silent (ret a).
Proof. intros s. split; reflexivity. Qed.

Lemma silent_raise {A : Type} (e : exn) : silent (raise (A := A) e).
Proof. intros s. split; reflexivity. Qed.

Lemma silent_lift {A : Type} (r : exn + A) : silent (lift r).
Proof. destruct r; [apply silent_raise | apply silent_ret]. Qed.

Lemma silent_bind {A B : Type} (c : Run A) (k : A -> Run B) :
  silent c -> (forall a, silent (k a)) -> silent (bind c k).
Proof.
  intros Hc Hk s. unfold bind. destruct (Hc s) as [Hc1 Hc2].
  destruct (c s) as [[a | e] s']; simpl in *.
  - destruct (Hk a s') as [H1 H2]. split; congruence.
  - split; assumption.
Qed.

Lemma silent_try {A : Type} (catches : exn -> bool) (body : Run A) (handler : exn -> Run A) :
  silent body -> (forall e, silent (handler e)) -> silent (try_except_if catches body handler).
Proof.
  intros Hb Hh s. unfold try_except_if. destruct (Hb s) as [Hb1 Hb2].
  destruct (body s) as [[a | e] s']; simpl in *.
  - split; assumption.
  - destruct (catches e); simpl; [| split; assumption].
    destruct (Hh e s') as [H1 H2]. split; congruence.
Qed.

Lemma silent_connect : silent connect.
Proof. intros s. unfold connect. destruct (sqlite3_connect (world s)); split; reflexivity. Qed.

Lemma silent_read_db {A : Type} (q : World -> exn + A) : silent (read_db q).
Proof. intros s. unfold read_db. destruct (q (world s)); split; reflexivity. Qed.

Lemma silent_pd_read_sql_query (sql : pyobj) : silent (pd_read_sql_query sql).
Proof.
  intros s. unfold pd_read_sql_query.
  destruct (read_sql_query sql (world s)) as [[e | df] w]; split; reflexivity.
Qed.

(** A call of the engine that offers no tools is not a turn of [ask]. *)
Lemma silent_create (request : ChatRequest) :
  req_tools request = None -> silent (create request).
Proof.
  intros Hnone s. unfold create.
  destruct (chat_completions_create request (world s)) as [[e | m] w];
    unfold think_entries, tool_invocations; simpl; rewrite Hnone; split; reflexivity.
Qed.

Lemma silent_py_split_comma (x : pyobj) : silent (py_split_comma x).
Proof. destruct x; simpl; try apply silent_raise. apply silent_ret. Qed.

Lemma silent_describe_tables (table_list : list string) :
  forall result_tables, silent (describe_tables table_list result_tables).
Proof.
  induction table_list as [| table_name rest IH]; intros result_tables; simpl.
  - apply silent_ret.
  - apply silent_bind; [apply silent_read_db |].
    intros [row |]; [| apply IH].
    apply silent_bind; [apply silent_read_db | intros columns].
    apply silent_bind; [apply silent_read_db | intros selected]. apply IH.
Qed.

Create HintDb silent.
#[local] Hint Resolve silent_ret silent_raise silent_lift silent_connect silent_read_db
  silent_pd_read_sql_query silent_py_split_comma silent_describe_tables : silent.

Ltac silent_steps :=
  repeat first
    [ apply silent_try; [| intros ?]
    | apply silent_bind; [| intros ?]
    | solve [auto with silent] ].

Lemma silent_query_sql_database (query : pyobj) : silent (query_sql_database query).
Proof.
  unfold query_sql_database, try_except. silent_steps.
  destruct (df_empty _); silent_steps.
Qed.

Lemma silent_info_sql_database (tables : pyobj) : silent (info_sql_database tables).
Proof. unfold info_sql_database, try_except. silent_steps. Qed.

Lemma silent_list_sql_database : silent list_sql_database.
Proof. unfold list_sql_database, try_except. silent_steps. Qed.

Lemma silent_query_sql_checker (query : pyobj) : silent (query_sql_checker query).
Proof.
  unfold query_sql_checker, try_except. silent_steps.
  - apply silent_create. reflexivity.
  - destruct (msg_content _); auto with silent.
Qed.

(** Every tool catches what its body raises. *)
Lemma never_raises_query_sql_database (query : pyobj) : never_raises (query_sql_database query).
Proof. apply never_raises_try; [reflexivity | intros e; apply never_raises_ret]. Qed.

Lemma never_raises_info_sql_database (tables : pyobj) : never_raises (info_sql_database tables).
Proof. apply never_raises_try; [reflexivity | intros e; apply never_raises_ret]. Qed.

Lemma never_raises_list_sql_database : never_raises list_sql_database.
Proof. apply never_raises_try; [reflexivity | intros e; apply never_raises_ret]. Qed.

Lemma never_raises_query_sql_checker (query : pyobj) : never_raises (query_sql_checker query).
Proof. apply never_raises_try; [reflexivity | intros e; apply never_raises_ret]. Qed.

(** [try: body / except Exception] around a body that returns is the body. *)
Lemma try_except_returns {A : Type} (body : Run A) (handler : exn -> Run A) (s : State) :
  (exists a s', body s = (Returned a, s')) -> try_except body handler s = body s.
Proof.
  intros (a & s' & H). unfold try_except, try_except_if. rewrite H. reflexivity.
Qed.

End Effects.

(** ** The dispatcher *)

Section Dispatcher.
Context `{RT : Runtime}.

(** The registry holds four functions. *)
Lemma registered_cases (function_name : string) (function : PyFunction) :
  dict_get function_name available_functions = Some function ->
  (function_name = "query_sql_database"
   /\ function = Def1 "query_sql_database" "query" query_sql_database)
  \/ (function_name = "info_sql_database"
      /\ function = Def1 "info_sql_database" "tables" info_sql_database)
  \/ (function_name = "list_sql_database"
      /\ function = Def0 "list_sql_database" list_sql_database)
  \/ (function_name = "query_sql_checker"
      /\ function = Def1 "query_sql_checker" "query" query_sql_checker).
Proof.
  unfold available_functions. cbn [dict_get].
  destruct (String.eqb_spec function_name "query_sql_database") as [-> | _];
    [intros [= <-]; auto |].
  destruct (String.eqb_spec function_name "info_sql_database") as [-> | _];
    [intros [= <-]; auto |].
  destruct (String.eqb_spec function_name "list_sql_database") as [-> | _];
    [intros [= <-]; auto |].
  destruct (String.eqb_spec function_name "query_sql_checker") as [-> | _];
    [intros [= <-]; auto 6 | discriminate].
Qed.

Lemma registered_well_behaved (function_name : string) (function : PyFunction) :
  dict_get function_name available_functions = Some function -> well_behaved function.
Proof.
  intros Hreg.
  destruct (registered_cases _ _ Hreg) as [[_ ->] | [[_ ->] | [[_ ->] | [_ ->]]]].
  - intros v. split;
      [apply never_raises_query_sql_database | apply silent_query_sql_database].
  - intros v. split;
      [apply never_raises_info_sql_database | apply silent_info_sql_database].
  - split; [apply never_raises_list_sql_database | apply silent_list_sql_database].
  - intros v. split;
      [apply never_raises_query_sql_checker | apply silent_query_sql_checker].
Qed.

Lemma silent_call (function : PyFunction) : well_behaved function -> silent (call function).
Proof.
  destruct function as [name body | name param body]; simpl.
  - intros [_ H]. exact H.
  - intros _. apply silent_raise.
Qed.

Lemma silent_call_kwargs (function : PyFunction) (arguments : pyobj) :
  well_behaved function -> silent (call_kwargs function arguments).
Proof.
  intros Hwb. unfold call_kwargs.
  destruct arguments; try apply silent_raise.
  destruct (find _ d) as [[k v] |]; [apply silent_raise |].
  destruct function as [name body | name param body]; simpl in Hwb.
  - apply Hwb.
  - destruct (dict_get param d); [apply Hwb | apply silent_raise].
Qed.

Lemma never_raises_execute_function_call (function_name : string) (arguments : pyobj) :
  never_raises (execute_function_call function_name arguments).
Proof.
  unfold execute_function_call.
  destruct (dict_get function_name available_functions).
  - apply never_raises_try; [reflexivity | intros e; apply never_raises_ret].
  - apply never_raises_ret.
Qed.

Lemma silent_execute_function_call (function_name : string) (arguments : pyobj) :
  silent (execute_function_call function_name arguments).
Proof.
  unfold execute_function_call.
  destruct (dict_get function_name available_functions) as [function |] eqn:Hreg.
  - apply registered_well_behaved in Hreg.
    apply silent_try; [| intros e; apply silent_ret].
    destruct (String.eqb function_name "list_sql_database");
      [apply silent_call | apply silent_call_kwargs]; assumption.
  - apply silent_ret.
Qed.

End Dispatcher.

(** ** The agent loop *)

Section Loop.
Context `{RT : Runtime}.

(** With parsable payloads the loop over the tool calls returns, and counts
    one tool run per call and no turn. *)
Lemma execute_tool_calls_returns (tool_calls : list ToolCall) :
  Forall parsable tool_calls ->
  forall messages s, exists messages' s',
    execute_tool_calls tool_calls messages s = (Returned messages', s')
    /\ think_entries (trace s') = think_entries (trace s)
    /\ tool_invocations (trace s') = (tool_invocations (trace s) + length tool_calls)%nat.
Proof.
  induction 1 as [| tool_call rest [function_args Hargs] _ IH]; intros messages s.
  - exists messages, s. simpl. repeat split. lia.
  - simpl. unfold bind at 1. rewrite Hargs. simpl.
    unfold bind at 1. simpl. unfold bind at 1.
    set (s1 := {| world := world s; trace := Printed _ _ :: trace s |}).
    destruct (never_raises_execute_function_call
                (fn_name (tc_function tool_call)) function_args s1) as (r & s2 & Hrun).
    destruct (silent_execute_function_call
                (fn_name (tc_function tool_call)) function_args s1) as [Hthink Htools].
    rewrite Hrun in *. simpl in Hthink, Htools.
    destruct (IH (messages ++ [ToolMessage (tc_id tool_call) (fn_name (tc_function tool_call)) r])%list s2)
      as (messages' & s' & Hrest & Hthink' & Htools').
    exists messages', s'. split; [exact Hrest |].
    rewrite Hthink', Htools', Hthink, Htools. subst s1.
    unfold think_entries, tool_invocations. simpl. split; lia.
Qed.

(** A call whose payload is not a JSON text ends the loop, and [ask], with
    the exception of [json.loads]: nothing is printed, no tool runs. *)
Lemma execute_tool_calls_raises (tool_call : ToolCall) (rest : list ToolCall) (e : exn) :
  Json.loads (fn_arguments (tc_function tool_call)) = inl e ->
  forall messages s, execute_tool_calls (tool_call :: rest) messages s = (Raised e, s).
Proof.
  intros Hargs messages s. simpl. unfold bind at 1. rewrite Hargs. reflexivity.
Qed.

(** With a budget of one turn or more, a first reply whose first tool call
    has a payload that is no JSON text makes [ask] raise what [json.loads]
    raises, right after the engine call. *)
Lemma ask_propagates_decode_error (question : string) (max_iterations : Z) (s : State)
    (m : ChatCompletionMessage) (w' : World) (tool_call : ToolCall) (rest : list ToolCall)
    (e : exn) :
  (0 < max_iterations)%Z ->
  let request := ask_request [SystemMessage system_message; UserMessage question] in
  chat_completions_create request (world s) = (inr m, w') ->
  msg_tool_calls m = Some (tool_call :: rest) ->
  Json.loads (fn_arguments (tc_function tool_call)) = inl e ->
  ask question max_iterations s
  = (Raised e, {| world := w'; trace := Create request :: trace s |}).
Proof.
  intros Hpos request Hcreate Hcalls Hargs. unfold ask.
  destruct (Z.to_nat max_iterations) as [| fuel] eqn:Hfuel; [lia |].
  cbn [ask_loop]. destruct (Z.ltb_spec 0 max_iterations); [| lia].
  unfold bind at 1, create. fold request. rewrite Hcreate, Hcalls.
  unfold bind at 1. rewrite (execute_tool_calls_raises _ _ _ Hargs). reflexivity.
Qed.

(** [fuel] is enough for the turns that remain: the loop does not run out
    of it. *)
Lemma ask_loop_fuel (fuel : nat) :
  forall max_iterations iteration messages s,
    (Z.to_nat (max_iterations - iteration) <= fuel)%nat ->
    fst (ask_loop fuel max_iterations iteration messages s) <> Returned None.
Proof.
  induction fuel as [| fuel IH]; intros max_iterations iteration messages s Hfuel;
    cbn [ask_loop].
  - destruct (Z.ltb_spec iteration max_iterations); [lia | discriminate].
  - destruct (Z.ltb_spec iteration max_iterations); [| discriminate].
    unfold bind at 1. destruct (create _ s) as [[m | e] s1]; [| discriminate].
    destruct (msg_tool_calls m) as [[| tool_call rest] |]; try discriminate.
    unfold bind at 1.
    destruct (execute_tool_calls (tool_call :: rest) _ s1) as [[messages' | e] s2];
      [| discriminate].
    apply IH. lia.
Qed.

(** [ask] gives itself enough fuel: it returns an answer or raises. *)
Lemma ask_never_runs_out (question : string) (max_iterations : Z) (s : State) :
  fst (ask question max_iterations s) <> Returned None.
Proof. unfold ask. apply ask_loop_fuel. lia. Qed.

Lemma ask_loop_exhausts (Hengine : always_requests_parsable_tools) (fuel : nat) :
  forall max_iterations iteration messages s,
    (Z.to_nat (max_iterations - iteration) <= fuel)%nat ->
    exists s', ask_loop fuel max_iterations iteration messages s = (Returned (Some exhausted), s')
               /\ think_entries (trace s')
                  = (think_entries (trace s) + Z.to_nat (max_iterations - iteration))%nat.
Proof.
  induction fuel as [| fuel IH]; intros max_iterations iteration messages s Hfuel;
    cbn [ask_loop].
  - destruct (Z.ltb_spec iteration max_iterations); [lia |].
    exists s. split; [reflexivity | lia].
  - destruct (Z.ltb_spec iteration max_iterations) as [Hlt | Hge];
      [| exists s; split; [reflexivity | lia]].
    destruct (Hengine (ask_request messages) (world s))
      as (m & w' & tool_call & rest & Hcreate & Hcalls & Hparse); [discriminate |].
    unfold bind at 1, create. rewrite Hcreate, Hcalls.
    set (s1 := {| world := w'; trace := _ |}).
    destruct (execute_tool_calls_returns (tool_call :: rest) Hparse
                (messages ++ [AssistantMessage m])%list s1)
      as (messages' & s2 & Hact & Hthink & _).
    unfold bind at 1. rewrite Hact.
    destruct (IH max_iterations (iteration + 1)%Z messages' s2) as (s' & Hloop & Hcount);
      [lia |].
    exists s'. split; [exact Hloop |].
    rewrite Hcount, Hthink. subst s1. unfold think_entries. simpl.
    replace (Z.to_nat (max_iterations - iteration))
      with (S (Z.to_nat (max_iterations - (iteration + 1)))) by lia.
    lia.
Qed.

End Loop.

(** ** Dictionaries and sorting *)

Section DictFacts.
Context {V : Type}.

Lemma dict_get_set_same (k : string) (v : V) (d : list (string * V)) :
  dict_get k (dict_set k v d) = Some v.
Proof.
  induction d as [| [k' v'] d IH]; simpl.
  - rewrite String.eqb_refl. reflexivity.
  - destruct (String.eqb k k') eqn:E; simpl; rewrite ?String.eqb_refl, ?E; auto.
Qed.

Lemma dict_get_set_other (k k' : string) (v : V) (d : list (string * V)) :
  k <> k' -> dict_get k (dict_set k' v d) = dict_get k d.
Proof.
  intros Hne. induction d as [| [k0 v0] d IH]; simpl.
  - destruct (String.eqb_spec k k'); [contradiction | reflexivity].
  - destruct (String.eqb_spec k' k0) as [-> | Hk0]; simpl.
    + destruct (String.eqb_spec k k0); [contradiction | reflexivity].
    + destruct (String.eqb_spec k k0); [reflexivity | exact IH].
Qed.

End DictFacts.

Lemma ascii_compare_N (a b : ascii) :
  Ascii.compare a b = N.compare (N_of_ascii a) (N_of_ascii b).
Proof. reflexivity. Qed.

Lemma lexical_le_trans (a b c : string) : lexical_le a b -> lexical_le b c -> lexical_le a c.
Proof.
  unfold lexical_le, String.leb. revert b c.
  induction a as [| x a IH]; intros [| y b] [| z c]; simpl; try congruence.
  rewrite !ascii_compare_N.
  destruct (N.compare_spec (N_of_ascii x) (N_of_ascii y)) as [Hxy | Hxy | Hxy];
    destruct (N.compare_spec (N_of_ascii y) (N_of_ascii z)) as [Hyz | Hyz | Hyz];
    destruct (N.compare_spec (N_of_ascii x) (N_of_ascii z)) as [Hxz | Hxz | Hxz];
    try congruence; try lia.
  apply IH.
Qed.

Lemma insert_sorted_perm (x : string) (l : list string) :
  Permutation (x :: l) (insert_sorted x l).
Proof.
  induction l as [| y l IH]; simpl; [reflexivity |].
  destruct (String.leb x y); [reflexivity |].
  rewrite perm_swap. constructor. exact IH.
Qed.

Lemma order_by_perm (l : list string) : Permutation l (order_by l).
Proof.
  induction l as [| x l IH]; simpl; [constructor |].
  rewrite <- insert_sorted_perm. constructor. exact IH.
Qed.

Lemma insert_sorted_sorted (x : string) (l : list string) :
  StronglySorted lexical_le l -> StronglySorted lexical_le (insert_sorted x l).
Proof.
  induction 1 as [| y l Hl IH Hy]; simpl.
  - repeat constructor.
  - destruct (String.leb x y) eqn:Hxy.
    + constructor; [constructor; assumption |].
      constructor; [exact Hxy |].
      eapply Forall_impl; [| exact Hy]. intros z Hz. exact (lexical_le_trans _ _ _ Hxy Hz).
    + constructor; [exact IH |].
      rewrite <- insert_sorted_perm. constructor; [| exact Hy].
      destruct (String.leb_total x y) as [H | H]; [congruence | exact H].
Qed.

Lemma order_by_sorted (l : list string) : StronglySorted lexical_le (order_by l).
Proof.
  induction l as [| x l IH]; simpl; [constructor | apply insert_sorted_sorted; exact IH].
Qed.

(** ** The data-access tools *)

(** Rows without a [bytes]: what [json.dumps] reads are the values. *)
Lemma for_each_map_values {A B C : Type} (f : A -> exn + B) (g : C -> A) (h : C -> B)
    (l : list C) :
  (forall c, f (g c) = inr (h c)) -> for_each f (map g l) = inr (map h l).
Proof.
  intros Hf. induction l as [| c l IH]; simpl; [reflexivity |].
  rewrite Hf, IH. reflexivity.
Qed.

Lemma dict_set_map_values {V W : Type} (f : V -> W) (k : string) (v : V)
    (d : list (string * V)) :
  dict_set k (f v) (map (fun kv => (fst kv, f (snd kv))) d)
  = map (fun kv => (fst kv, f (snd kv))) (dict_set k v d).
Proof.
  induction d as [| [k' v'] d IH]; simpl; [reflexivity |].
  destruct (String.eqb k k'); simpl; [reflexivity | rewrite IH; reflexivity].
Qed.

Lemma dict_get_map_values {V W : Type} (f : V -> W) (k : string) (d : list (string * V)) :
  dict_get k (map (fun kv => (fst kv, f (snd kv))) d) = option_map f (dict_get k d).
Proof.
  induction d as [| [k' v'] d IH]; simpl; [reflexivity |].
  destruct (String.eqb k k'); [reflexivity | exact IH].
Qed.

Lemma dict_zip_map_values {V W : Type} (f : V -> W) (keys : list string) (values : list V) :
  dict_zip keys (map f values)
  = map (fun kv => (fst kv, f (snd kv))) (dict_zip keys values).
Proof.
  unfold dict_zip, dict_of_pairs.
  change (@nil (string * W)) with (map (fun kv : string * V => (fst kv, f (snd kv))) []).
  generalize (@nil (string * V)) as d. revert values.
  induction keys as [| k keys IH]; intros values d; [reflexivity |].
  destruct values as [| v values]; [reflexivity |].
  cbn [map combine fold_left fst snd]. rewrite dict_set_map_values. apply IH.
Qed.

Lemma record_values (keys : list string) (row : list pyobj) :
  Json.record (dict_zip keys (map Value row)) = inr (PDict (dict_zip keys row)).
Proof.
  unfold Json.record. rewrite dict_zip_map_values.
  rewrite (for_each_map_values _ _ (fun kv => (fst kv, snd kv))); [| reflexivity].
  cbn [on_value]. do 2 f_equal.
  rewrite <- (map_id (dict_zip keys row)) at 2. apply map_ext. intros [k x]. reflexivity.
Qed.

Lemma records_values (keys : list string) (rows : list (list pyobj)) :
  Json.records (map (fun row => dict_zip keys row) (map (map Value) rows))
  = inr (map (fun row => PDict (dict_zip keys row)) rows).
Proof.
  unfold Json.records. rewrite map_map.
  apply for_each_map_values. intros row. apply record_values.
Qed.

Lemma dict_set_Forall {V : Type} (P : string * V -> Prop) (k : string) (v : V)
    (d : list (string * V)) :
  P (k, v) -> Forall P d -> Forall P (dict_set k v d).
Proof.
  intros Hv Hd. induction Hd as [| [k' v'] d Hkv Hd IH]; simpl.
  - constructor; [exact Hv | constructor].
  - destruct (String.eqb k k'); constructor; assumption.
Qed.

Section ToolFacts.
Context `{RT : Runtime}.

Lemma query_sql_database_answer (query : pyobj) (s : State) (df : DataFrame) (w' : World) :
  answers query s df w' ->
  query_sql_database query s
  = (Returned
       (if df_empty df then Json.dumps None no_results
        else match result_data df with
             | inr result => Json.dumps (Some 2) result
             | inl e =>
                 error_msg e
                   "Query failed. Please check your SQL syntax and table/column names."
             end),
     {| world := w'; trace := trace s |}).
Proof.
  intros [Hconnect Hread].
  unfold query_sql_database, try_except, try_except_if, bind, connect, pd_read_sql_query.
  rewrite Hconnect, Hread. destruct (df_empty df); [reflexivity |].
  destruct (result_data df); reflexivity.
Qed.

Lemma df_to_dict_records_length (df : DataFrame) :
  length (df_to_dict_records df) = length (df_rows df).
Proof. unfold df_to_dict_records. apply length_map. Qed.



Lemma describe_tables_entries (table_list : list string) (s : State) :
  (forall t, In t table_list -> entry_of (world s) t <> None) ->
  forall result_tables, exists result_tables',
    describe_tables table_list result_tables s = (Returned result_tables', s)
    /\ forall t,
         dict_get t result_tables'
         = if in_dec string_dec t table_list then entry_of (world s) t
           else dict_get t result_tables.
Proof.
  induction table_list as [| table_name rest IH]; intros Hok result_tables.
  - exists result_tables. split; reflexivity.
  - assert (Hrest : forall t, In t rest -> entry_of (world s) t <> None)
      by (intros t Ht; apply Hok; right; exact Ht).
    specialize (Hok table_name (or_introl eq_refl)).
    assert (Hstep : exists entry,
               entry_of (world s) table_name = Some entry
               /\ describe_tables (table_name :: rest) result_tables s
                  = describe_tables rest (dict_set table_name entry result_tables) s).
    { unfold entry_of in *. simpl. unfold bind at 1, read_db at 1.
      destruct (fetch_table table_name (world s)) as [row |].
      - unfold bind at 1, read_db at 1.
        destruct (pragma_table_info table_name (world s)) as [e | columns]; [congruence |].
        unfold bind at 1, read_db at 1.
        destruct (select_all table_name (world s)) as [e | [column_names rows]];
          [congruence |].
        eexists. split; reflexivity.
      - eexists. split; reflexivity. }
    destruct Hstep as (entry & Hentry & ->).
    destruct (IH Hrest (dict_set table_name entry result_tables)) as (final & Hrun & Hget).
    exists final. split; [exact Hrun |].
    intros t. rewrite Hget.
    destruct (in_dec string_dec t rest) as [Hin | Hnin];
      destruct (in_dec string_dec t (table_name :: rest)) as [Hin' | Hnin'];
      try reflexivity.
    + exfalso. apply Hnin'. right. exact Hin.
    + destruct Hin' as [<- | Hin]; [| contradiction].
      rewrite dict_get_set_same. symmetry. exact Hentry.
    + apply dict_get_set_other. intros ->. apply Hnin'. left. reflexivity.
Qed.

(** When no entry of the names holds a [bytes], none of the stored entries
    does. *)
Lemma describe_tables_values (table_list : list string) (s : State) :
  (forall t, In t table_list -> exists entry, entry_of (world s) t = Some (inr entry)) ->
  forall result_tables stored s',
    Forall (fun kv => exists v, snd kv = inr v) result_tables ->
    describe_tables table_list result_tables s = (Returned stored, s') ->
    Forall (fun kv => exists v, snd kv = inr v) stored.
Proof.
  induction table_list as [| table_name rest IH]; intros Hok result_tables stored s' Hacc;
    cbn [describe_tables].
  - intros [= <- _]. exact Hacc.
  - assert (Hrest : forall t, In t rest ->
                      exists entry, entry_of (world s) t = Some (inr entry))
      by (intros t Ht; apply Hok; right; exact Ht).
    destruct (Hok table_name (or_introl eq_refl)) as (entry & Hentry).
    unfold entry_of in Hentry. unfold bind at 1, read_db at 1.
    destruct (fetch_table table_name (world s)) as [row |].
    + unfold bind at 1, read_db at 1.
      destruct (pragma_table_info table_name (world s)) as [e | columns]; [discriminate |].
      unfold bind at 1, read_db at 1.
      destruct (select_all table_name (world s)) as [e | [column_names rows]];
        [discriminate |].
      apply (IH Hrest). apply dict_set_Forall; [| exact Hacc].
      exists entry. injection Hentry as Hentry. exact Hentry.
    + apply (IH Hrest).
      apply dict_set_Forall; [eexists; reflexivity | exact Hacc].
Qed.

Lemma serialized_values (stored : list (string * (exn + pyobj))) :
  Forall (fun kv => exists v, snd kv = inr v) stored ->
  exists result_tables,
    serialized stored = inr result_tables
    /\ stored = map (fun kv => (fst kv, inr (snd kv))) result_tables.
Proof.
  unfold serialized. induction 1 as [| [k r] stored [v Hv] _ (result_tables & Hrun & Heq)].
  - exists []. split; reflexivity.
  - simpl in Hv. subst r. exists ((k, v) :: result_tables). cbn [for_each fst snd on_value].
    rewrite Hrun. split; [reflexivity |]. simpl. rewrite <- Heq. reflexivity.
Qed.

(** When no statement raises and no sample row holds a [bytes],
    [info_sql_database] returns the entries of the names. *)
Lemma info_sql_database_entries (tables : string) (s : State) :
  sqlite3_connect (world s) = None ->
  (forall t, In t (table_list_of tables) ->
     exists entry, entry_of (world s) t = Some (inr entry)) ->
  exists stored result_tables,
    describe_tables (table_list_of tables) [] s = (Returned stored, s)
    /\ stored = map (fun kv => (fst kv, inr (snd kv))) result_tables
    /\ info_sql_database (PStr tables) s
       = (Returned (Json.dumps (Some 2) (PDict [("tables", PDict result_tables)])), s)
    /\ forall t,
         option_map inr (dict_get t result_tables)
         = if in_dec string_dec t (table_list_of tables) then entry_of (world s) t else None.
Proof.
  intros Hconnect Hok.
  destruct (describe_tables_entries (table_list_of tables) s) with (result_tables := @nil (string * (exn + pyobj)))
    as (stored & Hrun & Hget).
  { intros t Hin. destruct (Hok t Hin) as (entry & ->). discriminate. }
  pose proof (describe_tables_values _ _ Hok _ _ _ (Forall_nil _) Hrun) as Hvalues.
  destruct (serialized_values stored Hvalues) as (result_tables & Hserialized & Heq).
  exists stored, result_tables. split; [exact Hrun |]. split; [exact Heq |]. split.
  - unfold info_sql_database, try_except, try_except_if, bind, connect. rewrite Hconnect.
    simpl. fold (table_list_of tables). rewrite Hrun, Hserialized. reflexivity.
  - intros t. rewrite <- Hget, Heq. symmetry. apply dict_get_map_values.
Qed.

Lemma list_sql_database_result (s : State) :
  sqlite3_connect (world s) = None ->
  list_sql_database s
  = (Returned (Json.dumps (Some 2) (list_result (select_table_names (world s)))), s).
Proof.
  intros Hconnect.
  unfold list_sql_database, try_except, try_except_if, bind, connect. rewrite Hconnect.
  reflexivity.
Qed.

Lemma loads_raises_JSONDecodeError (text : string) (e : exn) :
  Json.loads text = inl e -> is_JSONDecodeError e = true.
Proof.
  unfold Json.loads. destruct (Json.scan_once _ _) as [msg | [v rest]].
  - intros [= <-]. reflexivity.
  - destruct (Json.skip_whitespace rest); [discriminate | intros [= <-]; reflexivity].
Qed.

(** On a reply that is no JSON text the checker returns the dictionary of
    its [except json.JSONDecodeError] clause. *)
Lemma query_sql_checker_unparsable (query : pyobj) (s : State)
    (m : ChatCompletionMessage) (w' : World) :
  chat_completions_create (checker_request query) (world s) = (inr m, w') ->
  unparsable (msg_content m) ->
  query_sql_checker query s
  = (Returned (Json.dumps (Some 2) (checker_fallback query (msg_content m))),
     {| world := w'; trace := Create (checker_request query) :: trace s |}).
Proof.
  intros Hcreate Hbad.
  unfold query_sql_checker, try_except, try_except_if at 1, bind at 1, create.
  rewrite Hcreate. unfold bind, try_except_if.
  destruct (msg_content m) as [text |]; simpl in *.
  - destruct Hbad as [e He]. rewrite He. simpl.
    rewrite (loads_raises_JSONDecodeError _ _ He). reflexivity.
  - reflexivity.
Qed.

(** A reply that is a JSON text comes back as it is, whatever its shape. *)
Lemma query_sql_checker_parsable (query : pyobj) (s : State)
    (m : ChatCompletionMessage) (w' : World) (text : string) (result : pyobj) :
  chat_completions_create (checker_request query) (world s) = (inr m, w') ->
  msg_content m = Some text ->
  Json.loads text = inr result ->
  query_sql_checker query s
  = (Returned (Json.dumps (Some 2) result),
     {| world := w'; trace := Create (checker_request query) :: trace s |}).
Proof.
  intros Hcreate Hcontent Hloads.
  unfold query_sql_checker, try_except, try_except_if at 1, bind at 1, create.
  rewrite Hcreate. unfold bind, try_except_if. rewrite Hcontent, Hloads. reflexivity.
Qed.

End ToolFacts.

(** * The properties of the specification *)

Section Claims.
Context `{RT : Runtime}.

(** C1 (as amended).  When on every turn, that is to every request that
    offers tools, the engine answers with a message that carries at least
    one tool call, and every argument payload is a JSON text,
    [ask question max_iterations] returns the fixed exhaustion message after
    exactly [max(0, max_iterations)] turns: at most [max_iterations] of them
    whenever [max_iterations] is not negative.  The loop is bounded.
    Nothing is assumed of the engine's answers to [query_sql_checker]. *)
Theorem ask_exhausts_budget (question : string) (max_iterations : Z) (s : State) :
  always_requests_parsable_tools ->
  exhausts_after (Z.to_nat max_iterations) question max_iterations s
  /\ (0 <= max_iterations -> Z.of_nat (Z.to_nat max_iterations) <= max_iterations)%Z.
Proof.
  intros Hengine. split; [| lia].
  unfold exhausts_after, ask.
  destruct (ask_loop_exhausts Hengine (Z.to_nat max_iterations) max_iterations 0
              [SystemMessage system_message; UserMessage question] s)
    as (s' & Hrun & Hcount); [lia |].
  exists s'. split; [exact Hrun |].
  rewrite Hcount. rewrite Z.sub_0_r. reflexivity.
Qed.


(** C5.  When the frame of a query has no row, [query_sql_database] returns
    the dictionary that holds the no-results message and nothing else: no
    [data] key, not an empty list. *)
Theorem query_sql_database_no_rows (query : pyobj) (s : State) (df : DataFrame)
    (w' : World) :
  answers query s df w' ->
  df_rows df = [] ->
  query_sql_database query s
  = (Returned
       (Json.dumps None
          (PDict [("message",
                   PStr "Query executed successfully but returned no results.")])),
     {| world := w'; trace := trace s |}).
Proof.
  intros Hanswer Hrows.
  rewrite (query_sql_database_answer _ _ _ _ Hanswer).
  unfold df_empty. rewrite Hrows. destruct (df_columns df); reflexivity.
Qed.


(** C7.  For a name that is not in the registry [execute_function_call]
    returns the structured error [{"error": "Function <name> not found"}],
    whatever the arguments: it raises nothing and touches nothing. *)
Theorem execute_function_call_unknown (function_name : string) (arguments : pyobj)
    (s : State) :
  dict_get function_name available_functions = None ->
  execute_function_call function_name arguments s
  = (Returned
       (Json.dumps None
          (PDict [("error", PStr ("Function " ++ function_name ++ " not found"))])),
     s).
Proof.
  intros Hunknown. unfold execute_function_call. rewrite Hunknown. reflexivity.
Qed.

(** C8.  For a registered name [execute_function_call] calls
    [list_sql_database] without arguments whatever the payload is; it calls
    any other tool with the payload expanded as keyword arguments, so that
    a payload that gives the tool's parameter, and only it, runs the tool on
    that value; and what the call raises comes back as the structured error
    [{"error": str(e)}].  No exception leaves the dispatcher. *)
Theorem execute_function_call_invokes (function_name : string) (function : PyFunction)
    (arguments : pyobj) (s : State) :
  dict_get function_name available_functions = Some function ->
  (function_name = "list_sql_database" ->
     execute_function_call function_name arguments s = list_sql_database s)
  /\ (function_name <> "list_sql_database" ->
        (exists param body,
            function = Def1 function_name param body
            /\ forall kwargs v,
                 (forall k, In k (map fst kwargs) -> k = param) ->
                 dict_get param kwargs = Some v ->
                 execute_function_call function_name (PDict kwargs) s = body v s)
        /\ execute_function_call function_name arguments s
           = match call_kwargs function arguments s with
             | (Returned r, s') => (Returned r, s')
             | (Raised e, s') =>
                 (Returned (Json.dumps None (PDict [("error", PStr (str_of_exn e))])), s')
             end)
  /\ exists r s', execute_function_call function_name arguments s = (Returned r, s').
Proof.
  intros Hreg. split; [| split].
  - intros ->. unfold execute_function_call. rewrite Hreg.
    injection Hreg as <-. cbn [String.eqb Ascii.eqb Bool.eqb call].
    apply try_except_returns. apply never_raises_list_sql_database.
  - intros Hother.
    assert (Hdispatch : execute_function_call function_name arguments s
                        = try_except (call_kwargs function arguments)
                            (fun e => ret (error_result (str_of_exn e))) s).
    { unfold execute_function_call. rewrite Hreg.
      destruct (String.eqb_spec function_name "list_sql_database");
        [contradiction | reflexivity]. }
    split.
    + assert (Hshape : exists param body,
                 function = Def1 function_name param body
                 /\ forall v, never_raises (body v)).
      { destruct (registered_cases _ _ Hreg)
          as [[-> ->] | [[-> ->] | [[-> ->] | [-> ->]]]];
          try contradiction; do 2 eexists; (split; [reflexivity |]); intros v.
        - apply never_raises_query_sql_database.
        - apply never_raises_info_sql_database.
        - apply never_raises_query_sql_checker. }
      destruct Hshape as (param & body & -> & Hbody).
      exists param, body. split; [reflexivity |].
      intros kwargs v Hkeys Hv.
      unfold execute_function_call. rewrite Hreg.
      destruct (String.eqb_spec function_name "list_sql_database"); [contradiction |].
      assert (Hcall : call_kwargs (Def1 function_name param body) (PDict kwargs) = body v).
      { unfold call_kwargs.
        destruct (find _ kwargs) as [[k v0] |] eqn:Hfind; [| rewrite Hv; reflexivity].
        apply find_some in Hfind. destruct Hfind as [Hin Hneq]. simpl in Hneq.
        rewrite (Hkeys k) in Hneq by (apply (in_map fst) in Hin; exact Hin).
        rewrite String.eqb_refl in Hneq. discriminate. }
      rewrite Hcall. apply try_except_returns. apply Hbody.
    + rewrite Hdispatch. unfold try_except, try_except_if.
      destruct (call_kwargs function arguments s) as [[r | e] s']; reflexivity.
  - apply never_raises_execute_function_call.
Qed.

(** C9.  [list_sql_database] returns every table name of the schema, in
    ascending byte order, with their number in the message, and leaves the
    world as it is: a second call returns the same text, and so does a call
    in any state with the same schema. *)
Theorem list_sql_database_sorted_idempotent (s : State) :
  sqlite3_connect (world s) = None ->
  let table_names := select_table_names (world s) in
  let result :=
    Json.dumps (Some 2)
      (PDict [("message", PStr ("Found " ++ str_of_int (Z.of_nat (length table_names))
                                  ++ " tables in the database"));
              ("tables", PList (map PStr table_names))]) in
  list_sql_database s = (Returned result, s)
  /\ Permutation table_names
       (map snd (filter (fun row => String.eqb (fst row) "table") (sqlite_master (world s))))
  /\ StronglySorted lexical_le table_names
  /\ (first <- list_sql_database ;; second <- list_sql_database ;; ret (first, second)) s
     = (Returned (result, result), s)
  /\ forall s2, sqlite3_connect (world s2) = None ->
       sqlite_master (world s2) = sqlite_master (world s) ->
       fst (list_sql_database s2) = Returned result.
Proof.
  intros Hconnect table_names result.
  assert (Hrun : list_sql_database s = (Returned result, s))
    by (apply list_sql_database_result; exact Hconnect).
  split; [exact Hrun |]. split; [| split; [| split]].
  - symmetry. apply order_by_perm.
  - apply order_by_sorted.
  - unfold bind. rewrite Hrun, Hrun. reflexivity.
  - intros s2 Hconnect2 Hschema.
    rewrite (list_sql_database_result s2 Hconnect2).
    unfold select_table_names. rewrite Hschema. reflexivity.
Qed.

(** C10.  With [max_iterations <= 0], [ask] returns the fixed exhaustion
    message at once and leaves the state as it found it: the engine is not
    called and no tool runs. *)
Theorem ask_without_budget (question : string) (max_iterations : Z) (s : State) :
  (max_iterations <= 0)%Z ->
  ask question max_iterations s = (Returned (Some exhausted), s)
  /\ think_entries (trace (snd (ask question max_iterations s))) = think_entries (trace s)
  /\ tool_invocations (trace (snd (ask question max_iterations s)))
     = tool_invocations (trace s).
Proof.
  intros Hle.
  assert (Hrun : ask question max_iterations s = (Returned (Some exhausted), s)).
  { unfold ask. replace (Z.to_nat max_iterations) with 0%nat by lia. simpl.
    destruct (Z.ltb_spec 0 max_iterations); [lia | reflexivity]. }
  rewrite Hrun. repeat split.
Qed.

End Claims.

(** * Concrete runs, on the test doubles *)

Import Doubles.

(** ** The model against the notebook

    The text [query_sql_database] returns for the query of notebook cell 3
    is the text recorded there. *)
Example query_sql_database_recorded_output :
  fst (query_sql_database (RT := fake_runtime prose) (PStr "SELECT * FROM Artist LIMIT 5")
         (initial prose chinook))
  = Returned
      (join (String LF "")
         ["{";
          "  " ++ quoted "message" ++ ": " ++ quoted "Query returned 5 rows." ++ ",";
          "  " ++ quoted "data" ++ ": [";
          "    {";
          "      " ++ quoted "ArtistId" ++ ": 1,";
          "      " ++ quoted "Name" ++ ": " ++ quoted "AC/DC";
          "    },";
          "    {";
          "      " ++ quoted "ArtistId" ++ ": 2,";
          "      " ++ quoted "Name" ++ ": " ++ quoted "Accept";
          "    },";
          "    {";
          "      " ++ quoted "ArtistId" ++ ": 3,";
          "      " ++ quoted "Name" ++ ": " ++ quoted "Aerosmith";
          "    },";
          "    {";
          "      " ++ quoted "ArtistId" ++ ": 4,";
          "      " ++ quoted "Name" ++ ": " ++ quoted "Alanis Morissette";
          "    },";
          "    {";
          "      " ++ quoted "ArtistId" ++ ": 5,";
          "      " ++ quoted "Name" ++ ": " ++ quoted "Alice In Chains";
          "    }";
          "  ],";
          "  " ++ quoted "total_rows" ++ ": 5";
          "}"]).
Proof. vm_compute. reflexivity. Qed.

(** A run of [ask] that ends with an answer: two tool turns, in the order
    the engine asked for them, then the final text. *)
Example ask_inspecting_run :
  fst (ask (RT := fake_runtime inspecting) question 5 (initial inspecting chinook))
  = Returned (Some (Some "There are 5 artists."))
  /\ think_entries (trace (snd (ask (RT := fake_runtime inspecting) question 5
                                  (initial inspecting chinook)))) = 3%nat
  /\ filter (fun ev => match ev with Printed _ _ => true | Create _ => false end)
       (trace (snd (ask (RT := fake_runtime inspecting) question 5
                      (initial inspecting chinook))))
     = [Printed "info_sql_database" (PDict [("tables", PStr "Artist")]);
        Printed "list_sql_database" (PDict [])].
Proof. repeat split; vm_compute; reflexivity. Qed.

(** The same engine with a budget of two turns: the answer never comes. *)
Example ask_inspecting_short_budget :
  fst (ask (RT := fake_runtime inspecting) question 2 (initial inspecting chinook))
  = Returned (Some exhausted).
Proof. vm_compute. reflexivity. Qed.

(** C1, witness: the engine that always asks for the list of tables, and a
    budget of 5 turns. *)
Lemma ask_exhausts_budget_witness :
  always_requests_parsable_tools (RT := fake_runtime always_listing)
  /\ exhausts_after (RT := fake_runtime always_listing) 5 question 5
       (initial always_listing chinook).
Proof.
  assert (Hengine : always_requests_parsable_tools (RT := fake_runtime always_listing)).
  { intros request w _. do 4 eexists. split; [reflexivity |]. split; [reflexivity |].
    repeat constructor. exists (PDict []). reflexivity. }
  split; [exact Hengine |].
  exact (proj1 (ask_exhausts_budget (RT := fake_runtime always_listing) question 5
                  (initial always_listing chinook) Hengine)).
Defined.

(** C1 as stated fails, twice.  The engine [malformed_arguments] requests a
    tool call on every turn, and [ask] does not return the exhaustion
    message, after any number of turns: the argument payload is no JSON text
    and [json.loads] raises.  And with a budget of -3 [ask] returns the
    exhaustion message after 0 turns, which is more than the budget. *)
Lemma ask_exhaustion_counterexample :
  (always_requests_tools (RT := fake_runtime malformed_arguments)
   /\ ~ (exists n,
           exhausts_after (RT := fake_runtime malformed_arguments) n question 5
             (initial malformed_arguments chinook)))
  /\ (always_requests_tools (RT := fake_runtime always_listing)
      /\ exhausts_after (RT := fake_runtime always_listing) 0 question (-3)
           (initial always_listing chinook)
      /\ ~ (Z.of_nat 0 <= -3)%Z).
Proof.
  split; split.
  - intros request w _. do 4 eexists. split; reflexivity.
  - intros (n & s' & Hrun & _). apply (f_equal fst) in Hrun.
    vm_compute in Hrun. discriminate Hrun.
  - intros request w _. do 4 eexists. split; reflexivity.
  - split; [| lia]. exists (initial always_listing chinook). split; [reflexivity | lia].
Qed.

(** C2, at the failing input: the first reply of the engine carries a tool
    call whose argument payload is an opening brace.  [ask] raises the
    [JSONDecodeError] of [json.loads]; the trace holds the engine call and
    nothing else: the dispatcher did not run, no tool message was built. *)
Theorem ask_raises_on_malformed_arguments :
  let run := ask (RT := fake_runtime malformed_arguments) question 5
               (initial malformed_arguments chinook) in
  fst run = Raised (JSONDecodeError "Expecting property name enclosed in double quotes")
  /\ trace (snd run)
     = [Create (ask_request [SystemMessage system_message; UserMessage question])]
  /\ tool_invocations (trace (snd run)) = 0%nat.
Proof. repeat split; vm_compute; reflexivity. Qed.

(** C3, at the failing input: the engine answers the checker in prose.  The
    dictionary returned has the keys [has_errors] and [errors]; it has no
    key [has_error], the name the checker's own prompt prescribes. *)
Theorem query_sql_checker_fallback_keys :
  let query := PStr "SELECT SELECT * FROM Artist" in
  let result :=
    PDict [("has_errors", PBool false);
           ("errors", PList []);
           ("corrected_query", query);
           ("explanation", PStr "The query looks fine to me.")] in
  fst (query_sql_checker (RT := fake_runtime prose) query (initial prose chinook))
  = Returned (Json.dumps (Some 2) result)
  /\ py_get "has_error" result = None
  /\ py_get "has_errors" result = Some (PBool false).
Proof. vm_compute. repeat split. Qed.



(** C5, witness: a query that matches no artist. *)
Lemma query_sql_database_no_rows_witness :
  fst (query_sql_database (RT := fake_runtime prose)
         (PStr "SELECT * FROM Artist WHERE ArtistId = 0") (initial prose chinook))
  = Returned
      (Json.dumps None
         (PDict [("message", PStr "Query executed successfully but returned no results.")])).
Proof.
  rewrite (query_sql_database_no_rows (RT := fake_runtime prose)
             (PStr "SELECT * FROM Artist WHERE ArtistId = 0") (initial prose chinook)
             {| df_columns := ["ArtistId"; "Name"]; df_rows := [] |} chinook).
  - reflexivity.
  - split; reflexivity.
  - reflexivity.
Defined.



(** C7, witness: a tool the engine made up. *)
Lemma execute_function_call_unknown_witness :
  execute_function_call (RT := fake_runtime prose) "drop_sql_database"
    (PDict [("table", PStr "Artist")]) (initial prose chinook)
  = (Returned
       (Json.dumps None (PDict [("error", PStr "Function drop_sql_database not found")])),
     initial prose chinook).
Proof.
  apply (execute_function_call_unknown (RT := fake_runtime prose)). reflexivity.
Defined.

(** C8, witness: the query tool, called with a payload that is a list. *)
Lemma execute_function_call_invokes_witness :
  execute_function_call (RT := fake_runtime prose) "query_sql_database"
    (PList [PStr "SELECT 1"]) (initial prose chinook)
  = (Returned
       (Json.dumps None
          (PDict [("error",
                   PStr "__main__.query_sql_database() argument after ** must be a mapping, not list")])),
     initial prose chinook)
  /\ execute_function_call (RT := fake_runtime prose) "query_sql_database"
       (PDict [("query", PStr "SELECT * FROM Artist WHERE ArtistId = 0")])
       (initial prose chinook)
     = query_sql_database (RT := fake_runtime prose)
         (PStr "SELECT * FROM Artist WHERE ArtistId = 0") (initial prose chinook).
Proof.
  split.
  - destruct (execute_function_call_invokes (RT := fake_runtime prose) "query_sql_database"
                (Def1 "query_sql_database" "query" query_sql_database)
                (PList [PStr "SELECT 1"]) (initial prose chinook) eq_refl)
      as (_ & Hother & _).
    destruct Hother as [_ ->]; [discriminate | reflexivity].
  - destruct (execute_function_call_invokes (RT := fake_runtime prose) "query_sql_database"
                (Def1 "query_sql_database" "query" query_sql_database)
                PNone (initial prose chinook) eq_refl)
      as (_ & Hother & _).
    destruct Hother as [(param & body & Hshape & Hcall) _]; [discriminate |].
    injection Hshape as <- <-. apply Hcall; [| reflexivity].
    intros k [<- | []]. reflexivity.
Defined.

(** C9, witness: the three tables of the double, stored out of order. *)
Lemma list_sql_database_sorted_idempotent_witness :
  select_table_names (RT := fake_runtime prose) chinook = ["Album"; "Artist"; "Genre"]
  /\ StronglySorted lexical_le ["Album"; "Artist"; "Genre"]
  /\ (first <- list_sql_database (RT := fake_runtime prose) ;;
      second <- list_sql_database (RT := fake_runtime prose) ;;
      ret (String.eqb first second)) (initial prose chinook)
     = (Returned true, initial prose chinook).
Proof.
  destruct (list_sql_database_sorted_idempotent (RT := fake_runtime prose)
              (initial prose chinook) eq_refl)
    as (Hrun & _ & Hsorted & Htwice & _).
  split; [reflexivity |]. split; [exact Hsorted |].
  unfold bind in *. rewrite Hrun in *. rewrite Hrun. unfold ret.
  rewrite String.eqb_refl. reflexivity.
Defined.

(** C10, witness: a budget of 0, then of -3, with an engine that would
    request a tool call. *)
Lemma ask_without_budget_witness :
  ask (RT := fake_runtime always_listing) question 0 (initial always_listing chinook)
  = (Returned (Some exhausted), initial always_listing chinook)
  /\ ask (RT := fake_runtime always_listing) question (-3) (initial always_listing chinook)
     = (Returned (Some exhausted), initial always_listing chinook).
Proof.
  split.
  - apply (ask_without_budget (RT := fake_runtime always_listing)). lia.
  - apply (ask_without_budget (RT := fake_runtime always_listing)). lia.
Defined.

(** * Further properties *)

(** ** What the tools leave in the trace *)

Section TraceFacts.
Context `{RT : Runtime}.

Lemma adds_only_ret {A : Type} (P : Event -> Prop) (a : A) : adds_only P (ret a).
Proof. intros s. exists []. split; [reflexivity | constructor]. Qed.

Lemma adds_only_raise {A : Type} (P : Event -> Prop) (e : exn) :
  adds_only P (raise (A := A) e).
Proof. intros s. exists []. split; [reflexivity | constructor]. Qed.

Lemma adds_only_lift {A : Type} (P : Event -> Prop) (r : exn + A) : adds_only P (lift r).
Proof. destruct r; [apply adds_only_raise | apply adds_only_ret]. Qed.

Lemma adds_only_bind {A B : Type} (P : Event -> Prop) (c : Run A) (k : A -> Run B) :
  adds_only P c -> (forall a, adds_only P (k a)) -> adds_only P (bind c k).
Proof.
  intros Hc Hk s. unfold bind. destruct (Hc s) as (new & Hnew & HP).
  destruct (c s) as [[a | e] s']; simpl in *.
  - destruct (Hk a s') as (new' & Hnew' & HP').
    exists (new' ++ new)%list. rewrite Hnew', Hnew, app_assoc.
    split; [reflexivity | apply Forall_app; split; assumption].
  - exists new. split; assumption.
Qed.

Lemma adds_only_try {A : Type} (P : Event -> Prop) (catches : exn -> bool) (body : Run A)
    (handler : exn -> Run A) :
  adds_only P body -> (forall e, adds_only P (handler e)) ->
  adds_only P (try_except_if catches body handler).
Proof.
  intros Hb Hh s. unfold try_except_if. destruct (Hb s) as (new & Hnew & HP).
  destruct (body s) as [[a | e] s']; simpl in *.
  - exists new. split; assumption.
  - destruct (catches e); simpl; [| exists new; split; assumption].
    destruct (Hh e s') as (new' & Hnew' & HP').
    exists (new' ++ new)%list. rewrite Hnew', Hnew, app_assoc.
    split; [reflexivity | apply Forall_app; split; assumption].
Qed.

Lemma adds_only_connect (P : Event -> Prop) : adds_only P connect.
Proof.
  intros s. exists []. unfold connect.
  destruct (sqlite3_connect (world s)); split; try reflexivity; constructor.
Qed.

Lemma adds_only_read_db {A : Type} (P : Event -> Prop) (q : World -> exn + A) :
  adds_only P (read_db q).
Proof.
  intros s. exists []. unfold read_db.
  destruct (q (world s)); split; try reflexivity; constructor.
Qed.

Lemma adds_only_pd_read_sql_query (P : Event -> Prop) (sql : pyobj) :
  adds_only P (pd_read_sql_query sql).
Proof.
  intros s. exists []. unfold pd_read_sql_query.
  destruct (read_sql_query sql (world s)) as [[e | df] w]; split; try reflexivity;
    constructor.
Qed.

Lemma adds_only_create (P : Event -> Prop) (request : ChatRequest) :
  P (Create request) -> adds_only P (create request).
Proof.
  intros HP s. exists [Create request]. unfold create.
  destruct (chat_completions_create request (world s)) as [[e | m] w];
    split; try reflexivity; repeat constructor; exact HP.
Qed.

Lemma adds_only_print_calling (P : Event -> Prop) (function_name : string)
    (function_args : pyobj) :
  P (Printed function_name function_args) ->
  adds_only P (print_calling function_name function_args).
Proof.
  intros HP s. exists [Printed function_name function_args].
  split; [reflexivity | repeat constructor; exact HP].
Qed.

Lemma adds_only_py_split_comma (P : Event -> Prop) (x : pyobj) :
  adds_only P (py_split_comma x).
Proof. destruct x; simpl; try apply adds_only_raise. apply adds_only_ret. Qed.

Lemma adds_only_describe_tables (P : Event -> Prop) (table_list : list string) :
  forall result_tables, adds_only P (describe_tables table_list result_tables).
Proof.
  induction table_list as [| table_name rest IH]; intros result_tables;
    cbn [describe_tables].
  - apply adds_only_ret.
  - apply adds_only_bind; [apply adds_only_read_db |].
    intros [row |]; [| apply IH].
    apply adds_only_bind; [apply adds_only_read_db | intros columns].
    apply adds_only_bind; [apply adds_only_read_db | intros selected]. apply IH.
Qed.

Lemma adds_only_query_sql_database (P : Event -> Prop) (query : pyobj) :
  adds_only P (query_sql_database query).
Proof.
  unfold query_sql_database, try_except.
  apply adds_only_try; [| intros e; apply adds_only_ret].
  apply adds_only_bind; [apply adds_only_connect | intros _].
  apply adds_only_bind; [apply adds_only_pd_read_sql_query | intros df].
  destruct (df_empty df); [apply adds_only_ret |].
  apply adds_only_bind; [apply adds_only_lift | intros result; apply adds_only_ret].
Qed.

Lemma adds_only_info_sql_database (P : Event -> Prop) (tables : pyobj) :
  adds_only P (info_sql_database tables).
Proof.
  unfold info_sql_database, try_except.
  apply adds_only_try; [| intros e; apply adds_only_ret].
  apply adds_only_bind; [apply adds_only_connect | intros _].
  apply adds_only_bind; [apply adds_only_py_split_comma | intros pieces].
  apply adds_only_bind; [apply adds_only_describe_tables | intros stored].
  apply adds_only_bind; [apply adds_only_lift | intros result_tables; apply adds_only_ret].
Qed.

Lemma adds_only_list_sql_database (P : Event -> Prop) : adds_only P list_sql_database.
Proof.
  unfold list_sql_database, try_except.
  apply adds_only_try; [| intros e; apply adds_only_ret].
  apply adds_only_bind; [apply adds_only_connect | intros _].
  apply adds_only_bind; [apply adds_only_read_db | intros names]. apply adds_only_ret.
Qed.

Lemma adds_only_query_sql_checker (query : pyobj) :
  adds_only tool_event (query_sql_checker query).
Proof.
  unfold query_sql_checker, try_except.
  apply adds_only_try; [| intros e; apply adds_only_ret].
  apply adds_only_bind; [apply adds_only_create; reflexivity | intros m].
  apply adds_only_bind; [| intros result; apply adds_only_ret].
  apply adds_only_try; [| intros e; apply adds_only_ret].
  destruct (msg_content m); [apply adds_only_lift | apply adds_only_raise].
Qed.

Lemma adds_only_execute_function_call (function_name : string) (arguments : pyobj) :
  adds_only tool_event (execute_function_call function_name arguments).
Proof.
  unfold execute_function_call.
  destruct (dict_get function_name available_functions) as [function |] eqn:Hreg;
    [| apply adds_only_ret].
  apply adds_only_try; [| intros e; apply adds_only_ret].
  assert (Hbody : match function with
                  | Def0 _ body => adds_only tool_event body
                  | Def1 _ _ body => forall v, adds_only tool_event (body v)
                  end).
  { destruct (registered_cases _ _ Hreg) as [[_ ->] | [[_ ->] | [[_ ->] | [_ ->]]]].
    - intros v. apply adds_only_query_sql_database.
    - intros v. apply adds_only_info_sql_database.
    - apply adds_only_list_sql_database.
    - intros v. apply adds_only_query_sql_checker. }
  destruct (String.eqb function_name "list_sql_database").
  - destruct function; simpl; [exact Hbody | apply adds_only_raise].
  - unfold call_kwargs. destruct arguments; try apply adds_only_raise.
    destruct (find _ d) as [[k v] |]; [apply adds_only_raise |].
    destruct function as [name body | name param body]; [exact Hbody |].
    destruct (dict_get param d); [apply Hbody | apply adds_only_raise].
Qed.

Lemma adds_only_execute_tool_calls (tool_calls : list ToolCall) :
  forall messages, adds_only tool_event (execute_tool_calls tool_calls messages).
Proof.
  induction tool_calls as [| tool_call rest IH]; intros messages;
    cbn [execute_tool_calls].
  - apply adds_only_ret.
  - apply adds_only_bind; [apply adds_only_lift | intros function_args].
    apply adds_only_bind; [apply adds_only_print_calling; exact I | intros _].
    apply adds_only_bind; [apply adds_only_execute_function_call | intros response].
    apply IH.
Qed.

(** Events of tools are no turns of [ask]. *)
Lemma think_entries_tool_events (new old : list Event) :
  Forall tool_event new -> think_entries (new ++ old) = think_entries old.
Proof.
  induction 1 as [| ev new Hev _ IH]; [reflexivity |].
  unfold think_entries in *. simpl.
  destruct ev as [request | name args]; simpl in *; [rewrite Hev |]; exact IH.
Qed.

(** What the loop over the tool calls returns, when it returns: the
    conversation it was given, then one tool message per call. *)
Lemma execute_tool_calls_shape (tool_calls : list ToolCall) :
  forall messages s messages' s',
    execute_tool_calls tool_calls messages s = (Returned messages', s') ->
    exists responses,
      length responses = length tool_calls
      /\ messages' = (messages ++ tool_messages tool_calls responses)%list.
Proof.
  induction tool_calls as [| tool_call rest IH]; intros messages s messages' s';
    cbn [execute_tool_calls].
  - intros [= <- <-]. exists []. split; [reflexivity |]. rewrite app_nil_r. reflexivity.
  - unfold bind at 1.
    destruct (Json.loads _) as [e | function_args]; simpl; [discriminate |].
    unfold bind at 1. simpl. unfold bind at 1.
    destruct (execute_function_call _ _ _) as [[response | e] s1]; [| discriminate].
    intros Hrest. apply IH in Hrest. destruct Hrest as (responses & Hlen & ->).
    exists (response :: responses). split; [simpl; congruence |].
    rewrite <- app_assoc. reflexivity.
Qed.



End TraceFacts.

(** ** The agent loop, for every engine *)

Section LoopFacts.
Context `{RT : Runtime}.

Lemma think_entries_execute_tool_calls (tool_calls : list ToolCall)
    (messages : list Message) (s : State) :
  think_entries (trace (snd (execute_tool_calls tool_calls messages s)))
  = think_entries (trace s).
Proof.
  destruct (adds_only_execute_tool_calls tool_calls messages s) as (new & -> & Hnew).
  apply think_entries_tool_events. exact Hnew.
Qed.

Lemma ask_loop_bound (fuel : nat) :
  forall max_iterations iteration messages s,
    (think_entries (trace (snd (ask_loop fuel max_iterations iteration messages s)))
     <= think_entries (trace s) + Z.to_nat (max_iterations - iteration))%nat.
Proof.
  induction fuel as [| fuel IH]; intros max_iterations iteration messages s;
    cbn [ask_loop].
  - destruct (Z.ltb_spec iteration max_iterations); simpl; lia.
  - destruct (Z.ltb_spec iteration max_iterations) as [Hlt | Hge]; [| simpl; lia].
    unfold bind at 1, create.
    destruct (chat_completions_create _ (world s)) as [[e | m] w].
    + unfold think_entries. simpl. unfold think_entries. lia.
    + set (s1 := {| world := w; trace := _ |}).
      assert (Hs1 : think_entries (trace s1) = S (think_entries (trace s)))
        by reflexivity.
      destruct (msg_tool_calls m) as [[| tool_call rest] |];
        try (unfold ret; cbn [snd]; rewrite Hs1; lia).
      unfold bind at 1.
      pose proof (think_entries_execute_tool_calls (tool_call :: rest)
                    (messages ++ [AssistantMessage m])%list s1) as Hact.
      destruct (execute_tool_calls _ _ s1) as [[messages' | e] s2];
        cbn [snd] in Hact; cbv beta iota.
      * specialize (IH max_iterations (iteration + 1)%Z messages' s2).
        rewrite Hact, Hs1 in IH. lia.
      * cbn [snd]. rewrite Hact, Hs1. lia.
Qed.

Lemma ask_loop_conversations (question : string) (fuel : nat) :
  forall max_iterations iteration history s,
    complete_turns history ->
    exists new,
      trace (snd (ask_loop fuel max_iterations iteration
                    ([SystemMessage system_message; UserMessage question] ++ history)%list
                    s))
      = (new ++ trace s)%list
      /\ Forall (fun ev => match ev with
                           | Create request =>
                               req_tools request <> None -> opens_with question request
                           | Printed _ _ => True
                           end) new.
Proof.
  induction fuel as [| fuel IH]; intros max_iterations iteration history s Hhistory;
    cbn [ask_loop].
  - destruct (iteration <? max_iterations)%Z; exists []; split; try reflexivity;
      constructor.
  - destruct (iteration <? max_iterations)%Z;
      [| exists []; split; [reflexivity | constructor]].
    set (messages := ([SystemMessage system_message; UserMessage question] ++ history)%list).
    assert (Hfirst : opens_with question (ask_request messages))
      by (exists history; split; [reflexivity | exact Hhistory]).
    unfold bind at 1, create.
    destruct (chat_completions_create _ (world s)) as [[e | m] w].
    + exists [Create (ask_request messages)]. split; [reflexivity |].
      repeat constructor. intros _. exact Hfirst.
    + set (s1 := {| world := w; trace := _ |}).
      destruct (msg_tool_calls m) as [[| tool_call rest] |] eqn:Hcalls;
        try (exists [Create (ask_request messages)]; split; [reflexivity |];
             repeat constructor; intros _; exact Hfirst).
      unfold bind at 1.
      destruct (adds_only_execute_tool_calls (tool_call :: rest)
                  (messages ++ [AssistantMessage m])%list s1) as (new1 & Hnew1 & Htools).
      assert (Htools' : Forall (fun ev => match ev with
                                          | Create request =>
                                              req_tools request <> None ->
                                              opens_with question request
                                          | Printed _ _ => True
                                          end) new1).
      { eapply Forall_impl; [| exact Htools].
        intros [request | name args] Hev; [| exact I].
        simpl in Hev. intros Hsome. contradiction. }
      destruct (execute_tool_calls (tool_call :: rest) _ s1)
        as [[messages' | e] s2] eqn:Hact; simpl in Hnew1.
      * apply execute_tool_calls_shape in Hact.
        destruct Hact as (responses & Hlen & ->).
        assert (Hhistory' : complete_turns
                              (history ++ AssistantMessage m
                                 :: tool_messages (tool_call :: rest) responses))
          by (econstructor; eassumption).
        assert (Heq : ((messages ++ [AssistantMessage m])
                         ++ tool_messages (tool_call :: rest) responses)%list
                      = ([SystemMessage system_message; UserMessage question]
                           ++ (history ++ AssistantMessage m
                                 :: tool_messages (tool_call :: rest) responses))%list)
          by (unfold messages; rewrite <- !app_assoc; reflexivity).
        cbv beta iota. rewrite Heq.
        destruct (IH max_iterations (iteration + 1)%Z _ s2 Hhistory')
          as (new2 & Hnew2 & Hall).
        exists (new2 ++ new1 ++ [Create (ask_request messages)])%list.
        split.
        -- rewrite Hnew2, Hnew1. subst s1. cbn [trace].
           rewrite <- !app_assoc. reflexivity.
        -- apply Forall_app. split; [exact Hall |].
           apply Forall_app. split; [exact Htools' |].
           repeat constructor. intros _. exact Hfirst.
      * exists (new1 ++ [Create (ask_request messages)])%list. split.
        -- cbv beta iota. cbn [snd]. rewrite Hnew1. subst s1. cbn [trace].
           rewrite <- app_assoc. reflexivity.
        -- apply Forall_app. split; [exact Htools' |].
           repeat constructor. intros _. exact Hfirst.
Qed.


(** Calls that parse, then one that does not: the tools of the first calls
    have run when [json.loads] raises. *)
Lemma execute_tool_calls_stops (before : list ToolCall) (broken : ToolCall)
    (after : list ToolCall) (e : exn) :
  Forall parsable before ->
  Json.loads (fn_arguments (tc_function broken)) = inl e ->
  forall messages s, exists s',
    execute_tool_calls (before ++ broken :: after) messages s = (Raised e, s')
    /\ tool_invocations (trace s') = (tool_invocations (trace s) + length before)%nat.
Proof.
  intros Hparse Hbroken. induction Hparse as [| tool_call before [args Hargs] _ IH];
    intros messages s.
  - exists s. split; [apply execute_tool_calls_raises; exact Hbroken | simpl; lia].
  - cbn [app execute_tool_calls]. unfold bind at 1. rewrite Hargs. simpl.
    unfold bind at 1. simpl. unfold bind at 1.
    set (s1 := {| world := world s; trace := Printed _ _ :: trace s |}).
    destruct (never_raises_execute_function_call
                (fn_name (tc_function tool_call)) args s1) as (r & s2 & Hrun).
    destruct (silent_execute_function_call
                (fn_name (tc_function tool_call)) args s1) as [_ Htools].
    rewrite Hrun in *. simpl in Htools.
    destruct (IH (messages ++ [ToolMessage (tc_id tool_call)
                                 (fn_name (tc_function tool_call)) r])%list s2)
      as (s' & Hrest & Hcount).
    exists s'. split; [exact Hrest |].
    rewrite Hcount, Htools. subst s1. unfold tool_invocations. simpl. lia.
Qed.

End LoopFacts.

(** ** Keys of a dictionary, and the loop of [info_sql_database] *)

Lemma existsb_eqb_In (name : string) (keys : list string) :
  existsb (String.eqb name) keys = true <-> In name keys.
Proof.
  rewrite existsb_exists. split.
  - intros (k & Hin & Heq). apply String.eqb_eq in Heq. subst. exact Hin.
  - intros Hin. exists name. split; [exact Hin | apply String.eqb_refl].
Qed.

Lemma keys_dict_set {V : Type} (k : string) (v : V) (d : list (string * V)) :
  map fst (dict_set k v d) = add_key (map fst d) k.
Proof.
  unfold add_key. induction d as [| [k' v'] d IH]; simpl; [reflexivity |].
  destruct (String.eqb k k') eqn:E; simpl.
  - apply String.eqb_eq in E. subst. reflexivity.
  - rewrite IH. destruct (existsb (String.eqb k) (map fst d)); reflexivity.
Qed.

Lemma add_keys_spec (names : list string) :
  forall keys, NoDup keys ->
    NoDup (fold_left add_key names keys)
    /\ forall t, In t (fold_left add_key names keys) <-> In t keys \/ In t names.
Proof.
  induction names as [| name names IH]; intros keys Hnodup; simpl.
  - split; [exact Hnodup | intros t; tauto].
  - assert (Hstep : NoDup (add_key keys name)
                    /\ forall t, In t (add_key keys name) <-> In t keys \/ t = name).
    { unfold add_key. destruct (existsb (String.eqb name) keys) eqn:E.
      - apply existsb_eqb_In in E. split; [exact Hnodup |].
        intros t. split; [tauto | intros [H | ->]; assumption].
      - split.
        + apply NoDup_app; [exact Hnodup | repeat constructor; intros [] |].
          intros t Hin [<- | []]. apply existsb_eqb_In in Hin. congruence.
        + intros t. rewrite in_app_iff. simpl. intuition. }
    destruct Hstep as [Hnodup' Hin'].
    destruct (IH _ Hnodup') as [Hfinal Hin]. split; [exact Hfinal |].
    intros t. rewrite Hin, Hin'. intuition.
Qed.

Lemma split_comma_aux_nonempty (s : string) :
  forall piece, split_comma_aux s piece <> [].
Proof.
  induction s as [| c s IH]; intros piece; simpl; [discriminate |].
  destruct (Ascii.eqb c ","); [discriminate | apply IH].
Qed.

Section DescribeFacts.
Context `{RT : Runtime}.

Lemma describe_tables_keys (table_list : list string) :
  forall result_tables s result_tables' s',
    describe_tables table_list result_tables s = (Returned result_tables', s') ->
    map fst result_tables' = fold_left add_key table_list (map fst result_tables).
Proof.
  induction table_list as [| table_name rest IH]; intros result_tables s final s';
    cbn [describe_tables fold_left].
  - intros [= <- _]. reflexivity.
  - unfold bind at 1, read_db at 1.
    destruct (fetch_table table_name (world s)).
    + unfold bind at 1, read_db at 1.
      destruct (pragma_table_info table_name (world s)); [discriminate |].
      unfold bind at 1, read_db at 1.
      destruct (select_all table_name (world s)); [discriminate |].
      intros Hrest. apply IH in Hrest. rewrite Hrest, keys_dict_set. reflexivity.
    + intros Hrest. apply IH in Hrest. rewrite Hrest, keys_dict_set. reflexivity.
Qed.

Lemma describe_tables_app (before after : list string) :
  forall result_tables s,
    describe_tables (before ++ after) result_tables s
    = bind (describe_tables before result_tables) (describe_tables after) s.
Proof.
  induction before as [| table_name before IH]; intros result_tables s;
    cbn [app describe_tables].
  - reflexivity.
  - unfold bind. unfold read_db.
    destruct (fetch_table table_name (world s)).
    + destruct (pragma_table_info table_name (world s)); [reflexivity |].
      destruct (select_all table_name (world s)); [reflexivity |].
      rewrite IH. reflexivity.
    + rewrite IH. reflexivity.
Qed.

End DescribeFacts.

(** * Further properties of the notebook's functions *)

Section Extras.
Context `{RT : Runtime}.

(** X1.  Whatever the engine does, and however [ask] ends, the number of
    turns of [ask question max_iterations], the engine calls that [ask]
    makes itself and that offer the tools, is at most
    [max(0, max_iterations)]; and [ask] does end, with a value or with an
    exception.  The engine calls [query_sql_checker] makes while a tool runs
    offer no tools and are not turns: they are not counted. *)
Theorem ask_engine_calls_bounded (question : string) (max_iterations : Z) (s : State) :
  (think_entries (trace (snd (ask question max_iterations s)))
   <= think_entries (trace s) + Z.to_nat max_iterations)%nat
  /\ fst (ask question max_iterations s) <> Returned None.
Proof.
  split; [| apply ask_never_runs_out].
  unfold ask.
  pose proof (ask_loop_bound (Z.to_nat max_iterations) max_iterations 0
                [SystemMessage system_message; UserMessage question] s) as Hbound.
  rewrite Z.sub_0_r in Hbound. exact Hbound.
Qed.



(** X4.  When all argument payloads of the tool calls of a turn are JSON
    texts, the loop over them returns the conversation it was given followed
    by one tool message per call, in the order of the calls, each with the
    identifier and the function name of its call; one tool has run per
    call. *)
Theorem execute_tool_calls_appends (tool_calls : list ToolCall) (messages : list Message)
    (s : State) :
  Forall parsable tool_calls ->
  exists responses s',
    execute_tool_calls tool_calls messages s
    = (Returned (messages ++ tool_messages tool_calls responses)%list, s')
    /\ length responses = length tool_calls
    /\ tool_invocations (trace s') = (tool_invocations (trace s) + length tool_calls)%nat.
Proof.
  intros Hparse.
  destruct (execute_tool_calls_returns tool_calls Hparse messages s)
    as (messages' & s' & Hrun & _ & Htools).
  destruct (execute_tool_calls_shape _ _ _ _ _ Hrun) as (responses & Hlen & ->).
  exists responses, s'. repeat split; assumption.
Qed.

(** X5.  Every request [ask] sends to the engine holds the system message,
    then the question, then complete turns only: each assistant message
    with tool calls is followed by the tool messages of all its calls, in
    the order of the calls, each with the identifier and the name of its
    call.  The engine never sees a part of a batch. *)
Theorem ask_requests_complete_turns (question : string) (max_iterations : Z) (s : State) :
  exists new,
    trace (snd (ask question max_iterations s)) = (new ++ trace s)%list
    /\ forall request,
         In (Create request) new -> req_tools request <> None ->
         opens_with question request.
Proof.
  unfold ask.
  destruct (ask_loop_conversations question (Z.to_nat max_iterations) max_iterations 0 []
              s no_turn) as (new & Hnew & Hall).
  exists new. split; [exact Hnew |].
  intros request Hin. rewrite Forall_forall in Hall. exact (Hall _ Hin).
Qed.

(** X6.  For a registered tool other than the list tool, a payload that
    does not give exactly the tool's parameter (it is no mapping, or has
    another key, or lacks the parameter) comes back as a structured error,
    and the tool does not run: the state is untouched. *)
Theorem execute_function_call_rejects_payload (function_name param : string)
    (body : pyobj -> Run string) (arguments : pyobj) (s : State) :
  dict_get function_name available_functions = Some (Def1 function_name param body) ->
  bound_value param arguments = None ->
  exists text,
    execute_function_call function_name arguments s
    = (Returned (Json.dumps None (PDict [("error", PStr text)])), s).
Proof.
  intros Hreg Hunbound. unfold execute_function_call. rewrite Hreg.
  assert (Hother : String.eqb function_name "list_sql_database" = false).
  { destruct (registered_cases _ _ Hreg) as [[-> _] | [[-> _] | [[_ H] | [-> _]]]];
      try reflexivity. discriminate H. }
  rewrite Hother. unfold try_except, try_except_if, call_kwargs.
  destruct arguments; try (eexists; reflexivity).
  destruct (find _ d) as [[k v] |] eqn:Hfind; [eexists; reflexivity |].
  simpl in Hunbound.
  assert (Hall : forallb (fun kv => String.eqb (fst kv) param) d = true).
  { apply forallb_forall. intros kv Hin.
    pose proof (find_none _ _ Hfind kv Hin) as Hneg. simpl in Hneg.
    apply negb_false_iff in Hneg. exact Hneg. }
  rewrite Hall in Hunbound. rewrite Hunbound. eexists. reflexivity.
Qed.

(** X7.  When the frame of a query has between 1 and 100 rows (and at
    least one column) and no cell of it is a [bytes],
    [query_sql_database] returns all of them: [data] holds one record per
    row, [total_rows] is their number and the message is "Query returned N
    rows.", which does not speak of a truncation.  A frame of exactly 100
    rows is not truncated. *)
Theorem query_sql_database_within_cap (query : pyobj) (s : State) (df : DataFrame)
    (w' : World) (rows : list (list pyobj)) :
  answers query s df w' ->
  df_columns df <> [] ->
  (1 <= length (df_rows df) <= 100)%nat ->
  df_rows df = map (map Value) rows ->
  let total := Z.of_nat (length (df_rows df)) in
  let data := map (fun row => PDict (dict_zip (df_columns df) row)) rows in
  query_sql_database query s
  = (Returned
       (Json.dumps (Some 2)
          (PDict [("message", PStr ("Query returned " ++ str_of_int total ++ " rows."));
                  ("data", PList data);
                  ("total_rows", PInt total)])),
     {| world := w'; trace := trace s |})
  /\ length data = length (df_rows df).
Proof.
  intros Hanswer Hcolumns Hrows Hvalues total data.
  rewrite (query_sql_database_answer _ _ _ _ Hanswer).
  assert (Hempty : df_empty df = false).
  { unfold df_empty. destruct (df_columns df); [contradiction |].
    destruct (df_rows df); [simpl in Hrows; lia | reflexivity]. }
  rewrite Hempty. unfold result_data, df_len. fold total.
  destruct (Z.gtb_spec total 100) as [Hgt | _]; [unfold total in Hgt; lia |].
  unfold df_to_dict_records. rewrite Hvalues, records_values.
  split; [reflexivity |]. unfold data. rewrite !length_map. reflexivity.
Qed.

(** X8.  When the connection or the query raises [e],
    [query_sql_database] returns the dictionary with [str(e)] under [error]
    and its fixed advice under [message]; it does not raise. *)
Theorem query_sql_database_failure (query : pyobj) (s : State) (e : exn) (w' : World) :
  query_fails query s e w' ->
  query_sql_database query s
  = (Returned
       (Json.dumps (Some 2)
          (PDict [("error", PStr (str_of_exn e));
                  ("message",
                   PStr "Query failed. Please check your SQL syntax and table/column names.")])),
     {| world := w'; trace := trace s |}).
Proof.
  unfold query_sql_database, try_except, try_except_if, bind, connect, pd_read_sql_query.
  intros [[Hconnect ->] | [Hconnect Hread]]; rewrite Hconnect.
  - destruct s. reflexivity.
  - rewrite Hread. reflexivity.
Qed.

(** X9.  The isolation of [info_sql_database] covers missing tables only:
    when a statement about a named table that exists raises [e], the call
    returns the error dictionary of the whole function, and what it had
    gathered about the names before is lost. *)
Theorem info_sql_database_aborts (tables : string) (s : State)
    (before after : list string) (t : string) (e : exn) :
  sqlite3_connect (world s) = None ->
  table_list_of tables = (before ++ t :: after)%list ->
  (forall n, In n before -> entry_of (world s) n <> None) ->
  introspection_fails (world s) t e ->
  info_sql_database (PStr tables) s
  = (Returned
       (Json.dumps (Some 2)
          (PDict [("error", PStr (str_of_exn e));
                  ("message", PStr "Failed to retrieve table information.")])),
     s).
Proof.
  intros Hconnect Hlist Hbefore [Hexists Hfails].
  unfold info_sql_database, try_except, try_except_if, bind at 1, connect.
  rewrite Hconnect. unfold bind at 1. simpl. fold (table_list_of tables).
  rewrite Hlist. unfold bind at 1. rewrite describe_tables_app.
  destruct (describe_tables_entries before s Hbefore []) as (gathered & Hrun & _).
  unfold bind at 1. rewrite Hrun.
  cbn [describe_tables]. unfold bind at 1, read_db at 1.
  destruct (fetch_table t (world s)); [| contradiction].
  unfold bind at 1, read_db at 1.
  destruct Hfails as [Hinfo | [[columns Hinfo] Hselect]]; rewrite Hinfo.
  - reflexivity.
  - unfold bind at 1, read_db at 1. rewrite Hselect. reflexivity.
Qed.

(** X10.  When no statement raises and no sample row holds a [bytes], the
    dictionary [info_sql_database] returns has one key per distinct name of
    its argument, in the order of the first occurrences: a name given twice
    is described once, and an empty argument gives the one key that is the
    empty name. *)
Theorem info_sql_database_keys (tables : string) (s : State) :
  sqlite3_connect (world s) = None ->
  (forall t, In t (table_list_of tables) ->
     exists entry, entry_of (world s) t = Some (inr entry)) ->
  exists result_tables,
    info_sql_database (PStr tables) s
    = (Returned (Json.dumps (Some 2) (PDict [("tables", PDict result_tables)])), s)
    /\ map fst result_tables = distinct_in_order (table_list_of tables)
    /\ NoDup (map fst result_tables)
    /\ (forall t, In t (map fst result_tables) <-> In t (table_list_of tables))
    /\ result_tables <> [].
Proof.
  intros Hconnect Hok.
  destruct (info_sql_database_entries tables s Hconnect Hok)
    as (stored & final & Hstored & Heq & Hrun & _).
  assert (Hkeys : map fst final = distinct_in_order (table_list_of tables)).
  { pose proof (describe_tables_keys _ _ _ _ _ Hstored) as Hkeys.
    rewrite Heq, map_map in Hkeys. exact Hkeys. }
  destruct (add_keys_spec (table_list_of tables) [] (NoDup_nil _)) as [Hnodup Hin].
  exists final. split; [exact Hrun | split; [exact Hkeys | split; [| split]]].
  - rewrite Hkeys. exact Hnodup.
  - intros t. rewrite Hkeys, Hin. simpl. tauto.
  - intros ->. simpl in Hkeys. unfold distinct_in_order in Hkeys.
    destruct (table_list_of tables) as [| t names] eqn:Hlist.
    + unfold table_list_of in Hlist. apply map_eq_nil in Hlist.
      exact (split_comma_aux_nonempty _ _ Hlist).
    + specialize (Hin t). rewrite <- Hkeys in Hin. apply Hin. right. left. reflexivity.
Qed.

(** X11.  When the database cannot be opened, [list_sql_database] and
    [info_sql_database] return their error dictionaries, with [str(e)] and
    the message of each function; they do not raise. *)
Theorem introspection_connection_failure (tables : pyobj) (s : State) (e : exn) :
  sqlite3_connect (world s) = Some e ->
  list_sql_database s
  = (Returned
       (Json.dumps (Some 2)
          (PDict [("error", PStr (str_of_exn e));
                  ("message", PStr "Failed to list database tables.")])), s)
  /\ info_sql_database tables s
     = (Returned
          (Json.dumps (Some 2)
             (PDict [("error", PStr (str_of_exn e));
                     ("message", PStr "Failed to retrieve table information.")])), s).
Proof.
  intros Hconnect.
  unfold list_sql_database, info_sql_database, try_except, try_except_if, bind, connect.
  rewrite Hconnect. split; reflexivity.
Qed.

(** X12.  When the engine's reply is a JSON text, [query_sql_checker]
    returns that value, serialized again, whatever its shape: no key of the
    reply is checked. *)
Theorem query_sql_checker_returns_reply (query : pyobj) (s : State)
    (m : ChatCompletionMessage) (w' : World) (text : string) (result : pyobj) :
  chat_completions_create (checker_request query) (world s) = (inr m, w') ->
  msg_content m = Some text ->
  Json.loads text = inr result ->
  query_sql_checker query s
  = (Returned (Json.dumps (Some 2) result),
     {| world := w'; trace := Create (checker_request query) :: trace s |}).
Proof. apply query_sql_checker_parsable. Qed.

(** X13.  When the call of the engine raises [e], [query_sql_checker]
    returns the dictionary with [str(e)] under [error] and "Failed to
    validate query." under [message]; it does not raise. *)
Theorem query_sql_checker_engine_failure (query : pyobj) (s : State) (e : exn)
    (w' : World) :
  chat_completions_create (checker_request query) (world s) = (inl e, w') ->
  query_sql_checker query s
  = (Returned
       (Json.dumps (Some 2)
          (PDict [("error", PStr (str_of_exn e));
                  ("message", PStr "Failed to validate query.")])),
     {| world := w'; trace := Create (checker_request query) :: trace s |}).
Proof.
  intros Hcreate.
  unfold query_sql_checker, try_except, try_except_if, bind at 1, create.
  rewrite Hcreate. reflexivity.
Qed.

(** X14.  The definitions sent to the engine and the registry agree: every
    definition of [tools] names a registered function whose parameters are
    the names the definition requires, and every registered function has a
    definition. *)
Theorem tools_match_registry :
  (forall definition, In definition tools ->
     exists name function,
       tool_name definition = Some name
       /\ dict_get name available_functions = Some function
       /\ tool_required definition = Some (map PStr (parameters function)))
  /\ (forall name function,
        dict_get name available_functions = Some function ->
        exists definition, In definition tools /\ tool_name definition = Some name).
Proof.
  split.
  - intros definition [<- | [<- | [<- | [<- | []]]]];
      do 2 eexists; (split; [reflexivity |]); split; reflexivity.
  - intros name function Hreg.
    destruct (registered_cases _ _ Hreg) as [[-> _] | [[-> _] | [[-> _] | [-> _]]]];
      [exists (nth 0 tools PNone) | exists (nth 1 tools PNone)
       | exists (nth 2 tools PNone) | exists (nth 3 tools PNone)];
      (split; [simpl; auto | reflexivity]).
Qed.

(** X15.  Each of the four tools returns a string for every argument, in
    every state of the database and of the engine: what its body raises is
    caught by its own [except Exception]. *)
Theorem tools_never_raise (argument : pyobj) (s : State) :
  (exists text s', query_sql_database argument s = (Returned text, s'))
  /\ (exists text s', info_sql_database argument s = (Returned text, s'))
  /\ (exists text s', list_sql_database s = (Returned text, s'))
  /\ (exists text s', query_sql_checker argument s = (Returned text, s')).
Proof.
  repeat split.
  - apply never_raises_query_sql_database.
  - apply never_raises_info_sql_database.
  - apply never_raises_list_sql_database.
  - apply never_raises_query_sql_checker.
Qed.

(** X16.  When the payloads of the first calls of a turn are JSON texts and
    the payload of the next call is not, [json.loads] raises after the tools
    of the first calls have run: the batch is left half done. *)
Theorem execute_tool_calls_partial_batch (before : list ToolCall) (broken : ToolCall)
    (after : list ToolCall) (e : exn) (messages : list Message) (s : State) :
  Forall parsable before ->
  Json.loads (fn_arguments (tc_function broken)) = inl e ->
  exists s',
    execute_tool_calls (before ++ broken :: after) messages s = (Raised e, s')
    /\ tool_invocations (trace s') = (tool_invocations (trace s) + length before)%nat.
Proof. intros Hparse Hbroken. apply execute_tool_calls_stops; assumption. Qed.

End Extras.

(** * Further concrete runs *)

Import MoreDoubles.



(** X4, witness: a turn of two calls. *)
Lemma execute_tool_calls_appends_witness :
  exists responses s',
    execute_tool_calls (RT := fake_runtime prose) [list_call; describe_call]
      [UserMessage question] (initial prose chinook)
    = (Returned ([UserMessage question]
                   ++ tool_messages [list_call; describe_call] responses)%list, s')
    /\ length responses = 2%nat.
Proof.
  destruct (execute_tool_calls_appends (RT := fake_runtime prose)
              [list_call; describe_call] [UserMessage question] (initial prose chinook))
    as (responses & s' & Hrun & Hlen & _).
  - repeat constructor; eexists; reflexivity.
  - exists responses, s'. split; [exact Hrun | exact Hlen].
Defined.

(** X6, witness: a payload with a key the query tool does not have. *)
Lemma execute_function_call_rejects_payload_witness :
  exists text,
    execute_function_call (RT := fake_runtime prose) "query_sql_database"
      (PDict [("query", PStr "SELECT * FROM Artist LIMIT 5"); ("limit", PInt 5)])
      (initial prose chinook)
    = (Returned (Json.dumps None (PDict [("error", PStr text)])), initial prose chinook).
Proof.
  apply (execute_function_call_rejects_payload (RT := fake_runtime prose)
           "query_sql_database" "query" query_sql_database).
  - reflexivity.
  - reflexivity.
Defined.

(** X7, witness: a frame of exactly 100 rows. *)
Lemma query_sql_database_within_cap_witness :
  fst (query_sql_database (RT := fake_runtime prose)
         (PStr "SELECT TrackId FROM Track LIMIT 100") (initial prose northwind))
  = Returned
      (Json.dumps (Some 2)
         (PDict [("message", PStr "Query returned 100 rows.");
                 ("data",
                  PList (map (fun k => PDict [("TrackId", PInt (Z.of_nat k))]) (seq 1 100)));
                 ("total_rows", PInt 100)]))
  /\ length (map (fun k => PDict [("TrackId", PInt (Z.of_nat k))]) (seq 1 100)) = 100%nat.
Proof.
  destruct (query_sql_database_within_cap (RT := fake_runtime prose)
              (PStr "SELECT TrackId FROM Track LIMIT 100") (initial prose northwind)
              (tracks 100) northwind (map (fun k => [PInt (Z.of_nat k)]) (seq 1 100)))
    as [Hrun Hlen].
  - split; reflexivity.
  - discriminate.
  - vm_compute. lia.
  - reflexivity.
  - rewrite Hrun. split; [reflexivity | vm_compute; reflexivity].
Defined.

(** X8, witness: a query the database does not know. *)
Lemma query_sql_database_failure_witness :
  fst (query_sql_database (RT := fake_runtime prose) (PStr "SELECT * FROM Nowhere")
         (initial prose chinook))
  = Returned
      (Json.dumps (Some 2)
         (PDict [("error",
                  PStr "Execution failed on sql 'SELECT * FROM Nowhere': not a query of this double");
                 ("message",
                  PStr "Query failed. Please check your SQL syntax and table/column names.")])).
Proof.
  rewrite (query_sql_database_failure (RT := fake_runtime prose)
             (PStr "SELECT * FROM Nowhere") (initial prose chinook)
             (OtherError "pandas.errors.DatabaseError"
                "Execution failed on sql 'SELECT * FROM Nowhere': not a query of this double")
             chinook).
  - reflexivity.
  - right. split; reflexivity.
Defined.

(** X9, witness: a table whose name is two words, between a table that
    exists and a name that is none. *)
Lemma info_sql_database_aborts_witness :
  fst (info_sql_database (RT := strict_runtime prose) (PStr "Artist, Order Details, Nope")
         (strict_initial prose northwind))
  = Returned
      (Json.dumps (Some 2)
         (PDict [("error", PStr "syntax error in: PRAGMA table_info(Order Details)");
                 ("message", PStr "Failed to retrieve table information.")])).
Proof.
  rewrite (info_sql_database_aborts (RT := strict_runtime prose)
             "Artist, Order Details, Nope" (strict_initial prose northwind)
             ["Artist"] ["Nope"] "Order Details"
             (syntax_error "PRAGMA table_info(Order Details)")).
  - reflexivity.
  - reflexivity.
  - reflexivity.
  - intros n [<- | []]. discriminate.
  - split; [discriminate | left; reflexivity].
Defined.

(** X10, witness: a name given twice around a name that is no table. *)
Lemma info_sql_database_keys_witness :
  exists result_tables,
    fst (info_sql_database (RT := fake_runtime prose) (PStr "Artist, Nope,Artist")
           (initial prose chinook))
    = Returned (Json.dumps (Some 2) (PDict [("tables", PDict result_tables)]))
    /\ map fst result_tables = ["Artist"; "Nope"].
Proof.
  destruct (info_sql_database_keys (RT := fake_runtime prose) "Artist, Nope,Artist"
              (initial prose chinook))
    as (result_tables & Hrun & Hkeys & _).
  - reflexivity.
  - intros t Hin. vm_compute in Hin.
    destruct Hin as [<- | [<- | [<- | []]]]; eexists; vm_compute; reflexivity.
  - exists result_tables. rewrite Hrun. split; [reflexivity | exact Hkeys].
Defined.

(** X11, witness: a database file that cannot be opened. *)
Lemma introspection_connection_failure_witness :
  fst (list_sql_database (RT := fake_runtime prose) (initial prose unreachable))
  = Returned
      (Json.dumps (Some 2)
         (PDict [("error", PStr "unable to open database file");
                 ("message", PStr "Failed to list database tables.")]))
  /\ fst (info_sql_database (RT := fake_runtime prose) (PStr "Artist")
            (initial prose unreachable))
     = Returned
         (Json.dumps (Some 2)
            (PDict [("error", PStr "unable to open database file");
                    ("message", PStr "Failed to retrieve table information.")])).
Proof.
  destruct (introspection_connection_failure (RT := fake_runtime prose) (PStr "Artist")
              (initial prose unreachable) unable_to_open eq_refl) as [Hlist Hinfo].
  rewrite Hlist, Hinfo. split; reflexivity.
Defined.

(** X12, witness: the engine answers the checker with a JSON object that
    has none of the expected keys. *)
Lemma query_sql_checker_returns_reply_witness :
  fst (query_sql_checker (RT := fake_runtime verdict) (PStr "SELECT 1")
         (initial verdict chinook))
  = Returned (Json.dumps (Some 2) (PDict [("verdict", PStr "fine")])).
Proof.
  rewrite (query_sql_checker_returns_reply (RT := fake_runtime verdict) (PStr "SELECT 1")
             (initial verdict chinook)
             {| msg_content := Some ("{" ++ quoted "verdict" ++ ": " ++ quoted "fine" ++ "}");
                msg_tool_calls := None |}
             chinook
             ("{" ++ quoted "verdict" ++ ": " ++ quoted "fine" ++ "}")
             (PDict [("verdict", PStr "fine")])).
  - reflexivity.
  - reflexivity.
  - reflexivity.
  - reflexivity.
Defined.

(** X13, witness: the engine cannot be reached. *)
Lemma query_sql_checker_engine_failure_witness :
  fst (query_sql_checker (RT := fake_runtime failing) (PStr "SELECT 1")
         (initial failing chinook))
  = Returned
      (Json.dumps (Some 2)
         (PDict [("error", PStr "Connection error.");
                 ("message", PStr "Failed to validate query.")])).
Proof.
  rewrite (query_sql_checker_engine_failure (RT := fake_runtime failing) (PStr "SELECT 1")
             (initial failing chinook) connection_error chinook).
  - reflexivity.
  - reflexivity.
Defined.

(** X16, witness: a call that parses, a call that does not, and a call that
    is never reached. *)
Lemma execute_tool_calls_partial_batch_witness :
  exists s',
    execute_tool_calls (RT := fake_runtime prose) [list_call; broken_call; describe_call]
      [UserMessage question] (initial prose chinook)
    = (Raised (JSONDecodeError "Expecting property name enclosed in double quotes"), s')
    /\ tool_invocations (trace s') = 1%nat.
Proof.
  apply (execute_tool_calls_partial_batch (RT := fake_runtime prose) [list_call]
           broken_call [describe_call]).
  - repeat constructor. eexists. reflexivity.
  - reflexivity.
Defined.
